(** * Eco-project admin panel: a shallow embedding of the dashboard views

    The development follows the TypeScript sources:
    - [src/lib/database.types.ts] and the SQL migration give the data model;
    - [MapView] gives the status workflow, the label and colour helpers and
      the location fetch;
    - [LogsView] gives the capped log fetch and its text filter;
    - [UsersView] gives the user list, its text filter and its mutations.

    Handlers are asynchronous functions with [try]/[catch]/[finally]; they are
    embedded in a small state-and-exception monad over the React state of the
    view and a world holding the hosted database, the clock, the console and
    the failures the backend is about to produce. *)

From Stdlib Require Import String Ascii List ZArith Bool Lia Arith Permutation.
Import ListNotations.

Open Scope string_scope.
Open Scope list_scope.

(** ** JavaScript strings *)

(** A JavaScript string is a finite sequence of code units; literals of the
    sources are kept as they are written in the files. *)
Module JsString.

(** [s.includes(q)]: [q] occurs in [s] as a contiguous run of units. *)
Fixpoint includes (s q : string) : bool :=
  if prefix q s then true
  else match s with
       | EmptyString => false
       | String _ s' => includes s' q
       end.

(** The mathematical reading of [includes]. *)
Definition Substring (q s : string) : Prop :=
  exists pre post, s = (pre ++ q ++ post)%string.

(** ToBoolean on strings: only the empty string is falsy. *)
Definition truthy (s : string) : bool :=
  match s with EmptyString => false | _ => true end.

End JsString.

(** ** Enumerations of [database.types.ts]

    The row types restrict these columns to closed sets of tokens, and the
    migration repeats the sets as CHECK constraints. *)

Inductive TrashType :=
  plastic | metal | glass | organic | electronic | mixed | other.

Inductive Status := reported | in_progress | cleaned | rejected.

Inductive Priority := low | medium | high.

Inductive LogLevel := info | warning | error | critical.

Definition trashTypeToken (t : TrashType) : string :=
  match t with
  | plastic => "plastic" | metal => "metal" | glass => "glass"
  | organic => "organic" | electronic => "electronic"
  | mixed => "mixed" | other => "other"
  end.

Definition statusToken (s : Status) : string :=
  match s with
  | reported => "reported" | in_progress => "in_progress"
  | cleaned => "cleaned" | rejected => "rejected"
  end.

Definition priorityToken (p : Priority) : string :=
  match p with low => "low" | medium => "medium" | high => "high" end.

Definition logLevelToken (l : LogLevel) : string :=
  match l with
  | info => "info" | warning => "warning"
  | error => "error" | critical => "critical"
  end.

Definition allStatuses : list Status :=
  [reported; in_progress; cleaned; rejected].



Definition allLogLevels : list LogLevel := [info; warning; error; critical].

(** The CHECK constraint on [status]: a token is accepted when it names a
    member of the set. *)
Definition parseStatus (tok : string) : option Status :=
  find (fun s => tok =? statusToken s) allStatuses.

(** Membership of a token in a closed enum set. *)
Definition isToken {A : Type} (token : A -> string) (members : list A)
    (x : string) : bool :=
  existsb (fun a => x =? token a) members.

Definition Status_eqb (a b : Status) : bool := statusToken a =? statusToken b.

(** ** Lookup helpers of the Map view *)

(** A [switch] over a string whose cases all [return]: the first case that is
    strictly equal to the scrutinee wins, otherwise the [default] branch. *)
Fixpoint switch {A : Type} (x : string) (cases : list (string * A))
    (default : A) : A :=
  match cases with
  | [] => default
  | (k, v) :: rest => if x =? k then v else switch x rest default
  end.

(** Whether some [case] label fires, that is, whether [default] is skipped. *)
Definition hitsCase {A : Type} (x : string) (cases : list (string * A)) : bool :=
  existsb (fun kv => x =? fst kv) cases.

(** What reading a property of an object literal yields: one of the literal's
    own strings, or a member inherited from [Object.prototype]. *)
Inductive JsValue :=
| JsStr (s : string)
| JsInherited (name : string).

(** The property names every object literal inherits. *)
Definition objectPrototypeKeys : list string :=
  [ "constructor"; "__defineGetter__"; "__defineSetter__"; "hasOwnProperty";
    "__lookupGetter__"; "__lookupSetter__"; "isPrototypeOf";
    "propertyIsEnumerable"; "toString"; "valueOf"; "__proto__";
    "toLocaleString" ].

Definition isInherited (k : string) : bool :=
  existsb (String.eqb k) objectPrototypeKeys.

Fixpoint ownProperty (labels : list (string * string)) (k : string)
    : option string :=
  match labels with
  | [] => None
  | (k', v) :: rest => if k =? k' then Some v else ownProperty rest k
  end.

(** [labels[k]] on a [Record<string, string>] literal; [None] is [undefined]. *)
Definition getProperty (labels : list (string * string)) (k : string)
    : option JsValue :=
  match ownProperty labels k with
  | Some v => Some (JsStr v)
  | None => if isInherited k then Some (JsInherited k) else None
  end.

Definition valueTruthy (v : JsValue) : bool :=
  match v with
  | JsStr s => JsString.truthy s
  | JsInherited _ => true
  end.

(** [labels[k] || k] *)
Definition lookupOrSelf (labels : list (string * string)) (k : string)
    : JsValue :=
  match getProperty labels k with
  | Some v => if valueTruthy v then v else JsStr k
  | None => JsStr k
  end.

Module MapHelpers.

Definition markerPresetCases : list (string * string) :=
  [ ("reported", "islands#redIcon");
    ("in_progress", "islands#blueIcon");
    ("cleaned", "islands#greenIcon");
    ("rejected", "islands#grayIcon") ].

Definition getMarkerPreset (status : string) : string :=
  switch status markerPresetCases "islands#redIcon".

Definition trashTypeLabels : list (string * string) :=
  [ ("plastic", "Пластик");
    ("metal", "Металл");
    ("glass", "Стекло");
    ("organic", "Органика");
    ("electronic", "Электроника");
    ("mixed", "Смешанный");
    ("other", "Другое") ].

Definition getTrashTypeLabel (type : string) : JsValue :=
  lookupOrSelf trashTypeLabels type.

Definition statusLabels : list (string * string) :=
  [ ("reported", "Сообщено");
    ("in_progress", "В работе");
    ("cleaned", "Очищено");
    ("rejected", "Отклонено") ].

Definition getStatusLabel (status : string) : JsValue :=
  lookupOrSelf statusLabels status.

(** An icon element: the component and its class list. *)
Record Icon := mkIcon { icon_component : string; icon_className : string }.

Definition statusIconCases : list (string * Icon) :=
  [ ("reported", mkIcon "MapPin" "w-5 h-5 text-red-500");
    ("in_progress", mkIcon "Clock" "w-5 h-5 text-blue-500");
    ("cleaned", mkIcon "CheckCircle" "w-5 h-5 text-green-500");
    ("rejected", mkIcon "XCircle" "w-5 h-5 text-gray-500") ].

Definition getStatusIcon (status : string) : Icon :=
  switch status statusIconCases (mkIcon "MapPin" "w-5 h-5").

Definition statusBadgeCases : list (string * string) :=
  [ ("reported", "bg-red-100 text-red-800");
    ("in_progress", "bg-blue-100 text-blue-800");
    ("cleaned", "bg-green-100 text-green-800");
    ("rejected", "bg-gray-100 text-gray-800") ].

Definition getStatusBadgeColor (status : string) : string :=
  switch status statusBadgeCases "bg-gray-100 text-gray-800".





(** The targets of the buttons under "Изменить статус" for a record whose
    status is [current], in the order they are rendered: each button is
    guarded by [selectedLocation.status !== target]. *)
Definition offeredTransitions (current : Status) : list string :=
  (if negb (statusToken current =? "in_progress") then ["in_progress"] else [])
  ++ (if negb (statusToken current =? "cleaned") then ["cleaned"] else [])
  ++ (if negb (statusToken current =? "rejected") then ["rejected"] else []).

End MapHelpers.

(** ** Rows of the hosted tables ([database.types.ts], SQL migration) *)

Definition Uuid := string.

(** A [timestamptz] value, and what [new Date().toISOString()] denotes: an
    instant, counted in milliseconds. *)
Definition Timestamp := Z.

Bind Scope Z_scope with Timestamp.

#[local] Unset Elimination Schemes.

Inductive Json :=
| JNull
| JBool (b : bool)
| JNumber (n : Z)
| JString (s : string)
| JArray (items : list Json)
| JObject (fields : list (string * Json)).

#[local] Set Elimination Schemes.

(** [v ?? d] for an optional key of an [Update] object. *)
Definition orKeep {A : Type} (v : option A) (d : A) : A :=
  match v with Some a => a | None => d end.

Module ProjectUsers.

Record Row := mkRow {
  id : Uuid;
  email : string;
  full_name : string;
  phone : option string;
  is_active : bool;
  reports_count : Z;
  created_at : Timestamp;
  updated_at : Timestamp
}.

(** The [Update] shape, also [Partial<ProjectUser>]: every key is optional. *)
Record Update := mkUpdate {
  u_id : option Uuid;
  u_email : option string;
  u_full_name : option string;
  u_phone : option (option string);
  u_is_active : option bool;
  u_reports_count : option Z;
  u_created_at : option Timestamp;
  u_updated_at : option Timestamp
}.

Definition noUpdate : Update :=
  mkUpdate None None None None None None None None.

(** An object holding every key of a row, as [setEditForm(user)] stores. *)
Definition ofRow (r : Row) : Update :=
  mkUpdate (Some (id r)) (Some (email r)) (Some (full_name r))
    (Some (phone r)) (Some (is_active r)) (Some (reports_count r))
    (Some (created_at r)) (Some (updated_at r)).

Definition applyUpdate (p : Update) (r : Row) : Row :=
  mkRow (orKeep (u_id p) (id r)) (orKeep (u_email p) (email r))
    (orKeep (u_full_name p) (full_name r)) (orKeep (u_phone p) (phone r))
    (orKeep (u_is_active p) (is_active r))
    (orKeep (u_reports_count p) (reports_count r))
    (orKeep (u_created_at p) (created_at r))
    (orKeep (u_updated_at p) (updated_at r)).

(** The add-user form, which is also the object given to [insert]. *)
Record NewUserForm := mkForm {
  f_email : string;
  f_full_name : string;
  f_phone : string
}.

(** Column defaults of the migration for the keys the form leaves out. *)
Definition insertDefaults (f : NewUserForm) (fresh : Uuid) (now : Timestamp)
    : Row :=
  mkRow fresh (f_email f) (f_full_name f) (Some (f_phone f)) true 0 now now.

End ProjectUsers.

Module TrashLocations.

Record Row := mkRow {
  id : Uuid;
  user_id : option Uuid;
  latitude : Z;      (* numeric(10, 8), in units of 1e-8 degree *)
  longitude : Z;     (* numeric(11, 8), in units of 1e-8 degree *)
  description : string;
  trash_type : TrashType;
  status : Status;
  priority : Priority;
  image_url : option string;
  created_at : Timestamp;
  updated_at : Timestamp;
  cleaned_at : option Timestamp
}.

(** The object handed to [update]. [handleStatusChange] builds it as [any]
    from a plain string, so [status] is the raw token here. *)
Record Update := mkUpdate {
  u_id : option Uuid;
  u_user_id : option (option Uuid);
  u_latitude : option Z;
  u_longitude : option Z;
  u_description : option string;
  u_trash_type : option TrashType;
  u_status : option string;
  u_priority : option Priority;
  u_image_url : option (option string);
  u_created_at : option Timestamp;
  u_updated_at : option Timestamp;
  u_cleaned_at : option (option Timestamp)
}.

Definition noUpdate : Update :=
  mkUpdate None None None None None None None None None None None None.

(** [{ status: newStatus, updated_at: t }] *)
Definition statusUpdate (newStatus : string) (t : Timestamp) : Update :=
  mkUpdate None None None None None None (Some newStatus) None None None
    (Some t) None.

(** [updates.cleaned_at = t] *)
Definition setCleanedAt (t : Timestamp) (p : Update) : Update :=
  mkUpdate (u_id p) (u_user_id p) (u_latitude p) (u_longitude p)
    (u_description p) (u_trash_type p) (u_status p) (u_priority p)
    (u_image_url p) (u_created_at p) (u_updated_at p) (Some (Some t)).

(** Writing the keys of an update into a row. The CHECK constraint on
    [status] refuses a token outside the set: [None]. *)
Definition applyUpdate (p : Update) (r : Row) : option Row :=
  match match u_status p with
        | Some tok => parseStatus tok
        | None => Some (status r)
        end with
  | None => None
  | Some st =>
      Some (mkRow (orKeep (u_id p) (id r)) (orKeep (u_user_id p) (user_id r))
              (orKeep (u_latitude p) (latitude r))
              (orKeep (u_longitude p) (longitude r))
              (orKeep (u_description p) (description r))
              (orKeep (u_trash_type p) (trash_type r)) st
              (orKeep (u_priority p) (priority r))
              (orKeep (u_image_url p) (image_url r))
              (orKeep (u_created_at p) (created_at r))
              (orKeep (u_updated_at p) (updated_at r))
              (orKeep (u_cleaned_at p) (cleaned_at r)))
  end.

(** The keys an [INSERT] of the migration supplies for a report. *)
Record Report := mkReport {
  r_user_id : option Uuid;
  r_latitude : Z;
  r_longitude : Z;
  r_description : string;
  r_trash_type : TrashType;
  r_status : option Status;
  r_priority : option Priority
}.

(** Column defaults of [CREATE TABLE trash_locations]: [status] defaults to
    ['reported'], [priority] to ['medium'], the two stamps to [now()], and
    [image_url] and [cleaned_at] have no default, hence NULL. *)
Definition insertDefaults (rep : Report) (fresh : Uuid) (now : Timestamp)
    : Row :=
  mkRow fresh (r_user_id rep) (r_latitude rep) (r_longitude rep)
    (r_description rep) (r_trash_type rep)
    (orKeep (r_status rep) reported) (orKeep (r_priority rep) medium)
    None now now None.

(** A row of [select('*, project_users(full_name)')]: the location with the
    embedded reporter, [null] when there is none. *)
Record Joined := mkJoined {
  row : Row;
  project_users : option string
}.

End TrashLocations.

Module SystemLogs.

Record Row := mkRow {
  id : Uuid;
  log_level : LogLevel;
  action : string;
  user_id : option Uuid;
  entity_type : option string;
  entity_id : option Uuid;
  details : Json;
  ip_address : option string;
  created_at : Timestamp
}.

End SystemLogs.

(** The tables the three views read and write. *)
Record Database := mkDatabase {
  project_users : list ProjectUsers.Row;
  trash_locations : list TrashLocations.Row;
  system_logs : list SystemLogs.Row
}.

(** ** The hosted backend

    The client library and the database server are collaborators outside the
    sources. Their part is kept small: a query is the record of what the
    builder calls asked for, and the server answers it by filtering, ordering
    and truncating the rows of one table. *)

Record Error := mkError { message : string }.

(** The resolved value of an awaited query: [{ data, error }]. *)
Record Response (A : Type) := mkResponse {
  data : option A;
  error_ : option Error
}.

Arguments mkResponse {A} _ _.
Arguments data {A} _.
Arguments error_ {A} _.

Definition failed {A : Type} (e : Error) : Response A :=
  mkResponse None (Some e).

(** What a table offers to the query builder. A column that holds text can
    be compared with [eq]; a column that holds an instant can be ordered. *)
Class Table (R : Type) := {
  rowsOf : Database -> list R;
  withRows : list R -> Database -> Database;
  textColumn : string -> option (R -> option string);
  timeColumn : string -> option (R -> Timestamp)
}.

#[export] Instance ProjectUsers_Table : Table ProjectUsers.Row := {
  rowsOf := project_users;
  withRows rows db := mkDatabase rows (trash_locations db) (system_logs db);
  textColumn c :=
    if c =? "id" then Some (fun r => Some (ProjectUsers.id r))
    else if c =? "email" then Some (fun r => Some (ProjectUsers.email r))
    else if c =? "full_name"
    then Some (fun r => Some (ProjectUsers.full_name r))
    else if c =? "phone" then Some ProjectUsers.phone
    else None;
  timeColumn c :=
    if c =? "created_at" then Some ProjectUsers.created_at
    else if c =? "updated_at" then Some ProjectUsers.updated_at
    else None
}.

#[export] Instance TrashLocations_Table : Table TrashLocations.Row := {
  rowsOf := trash_locations;
  withRows rows db := mkDatabase (project_users db) rows (system_logs db);
  textColumn c :=
    if c =? "id" then Some (fun r => Some (TrashLocations.id r))
    else if c =? "user_id" then Some TrashLocations.user_id
    else if c =? "description"
    then Some (fun r => Some (TrashLocations.description r))
    else if c =? "trash_type"
    then Some (fun r => Some (trashTypeToken (TrashLocations.trash_type r)))
    else if c =? "status"
    then Some (fun r => Some (statusToken (TrashLocations.status r)))
    else if c =? "priority"
    then Some (fun r => Some (priorityToken (TrashLocations.priority r)))
    else if c =? "image_url" then Some TrashLocations.image_url
    else None;
  timeColumn c :=
    if c =? "created_at" then Some TrashLocations.created_at
    else if c =? "updated_at" then Some TrashLocations.updated_at
    else None
}.

#[export] Instance SystemLogs_Table : Table SystemLogs.Row := {
  rowsOf := system_logs;
  withRows rows db := mkDatabase (project_users db) (trash_locations db) rows;
  textColumn c :=
    if c =? "id" then Some (fun r => Some (SystemLogs.id r))
    else if c =? "log_level"
    then Some (fun r => Some (logLevelToken (SystemLogs.log_level r)))
    else if c =? "action" then Some (fun r => Some (SystemLogs.action r))
    else if c =? "user_id" then Some SystemLogs.user_id
    else if c =? "entity_type" then Some SystemLogs.entity_type
    else if c =? "entity_id" then Some SystemLogs.entity_id
    else if c =? "ip_address" then Some SystemLogs.ip_address
    else None;
  timeColumn c :=
    if c =? "created_at" then Some SystemLogs.created_at else None
}.

Module Query.

(** What the chained builder calls record. *)
Record t := mk {
  filters : list (string * string);     (* .eq(column, value) *)
  ordering : option (string * bool);    (* .order(column, { ascending }) *)
  limit_ : option nat                   (* .limit(count) *)
}.

(** [supabase.from(table).select(...)] *)
Definition select : t := mk [] None None.

Definition order (column : string) (ascending : bool) (q : t) : t :=
  mk (filters q) (Some (column, ascending)) (limit_ q).

Definition limit (count : nat) (q : t) : t :=
  mk (filters q) (ordering q) (Some count).

Definition eq (column value : string) (q : t) : t :=
  mk (filters q ++ [(column, value)]) (ordering q) (limit_ q).

Section Run.
Context {R : Type} `{Table R}.

(** Modelled from the spec: the server half of "select-all-with-filter-and-
    order" is not in the sources. Insertion of [r] into rows that are already
    in descending order of [key]; among equal keys the row met first in the
    table comes first. *)
Fixpoint insertDesc (key : R -> Timestamp) (r : R) (rows : list R) : list R :=
  match rows with
  | [] => [r]
  | x :: rest =>
      if (key x <=? key r)%Z then r :: x :: rest
      else x :: insertDesc key r rest
  end.

(** Modelled from the spec: ORDER BY [key] DESC on the server. *)
Definition sortDesc (key : R -> Timestamp) (rows : list R) : list R :=
  fold_right (insertDesc key) [] rows.

(** Rows in descending order of [key]. *)
Inductive Descending (key : R -> Timestamp) : list R -> Prop :=
| Descending_nil : Descending key []
| Descending_cons (r : R) (rows : list R) :
    Forall (fun x => (key x <= key r)%Z) rows ->
    Descending key rows -> Descending key (r :: rows).

(** Modelled from the spec: ORDER BY in either direction. *)
Definition sortBy (key : R -> Timestamp) (ascending : bool) (rows : list R)
    : list R :=
  if ascending then sortDesc (fun r => (- key r)%Z) rows
  else sortDesc key rows.

(** Modelled from the spec: one equality filter of the server on one row; a
    NULL never equals a value. *)
Definition holds (get : R -> option string) (value : string) (r : R) : bool :=
  match get r with
  | Some x => x =? value
  | None => false
  end.

(** Modelled from the spec: the WHERE clause of the server, where every
    filter must hold. A filter on a column the table does not have is an
    error of the whole request. *)
Fixpoint matcher (fs : list (string * string)) : Error + (R -> bool) :=
  match fs with
  | [] => inr (fun _ => true)
  | (c, v) :: rest =>
      match textColumn c with
      | None => inl (mkError ("column does not exist: " ++ c))
      | Some get =>
          match matcher rest with
          | inl e => inl e
          | inr m => inr (fun r => holds get v r && m r)
          end
      end
  end.

(** Modelled from the spec: the ORDER BY clause of the server, if any. *)
Definition orderBy (o : option (string * bool)) (rows : list R)
    : Error + list R :=
  match o with
  | None => inr rows
  | Some (c, ascending) =>
      match timeColumn c with
      | None => inl (mkError ("cannot order by: " ++ c))
      | Some key => inr (sortBy key ascending rows)
      end
  end.

(** Modelled from the spec: the LIMIT clause of the server, if any. *)
Definition truncate (l : option nat) (rows : list R) : list R :=
  match l with
  | Some n => firstn n rows
  | None => rows
  end.

(** Modelled from the spec: the server answers a select with the rows that
    pass every filter, in the requested order, cut at the requested count,
    whatever the order of the builder calls was. *)
Definition run (q : t) (db : Database) : Error + list R :=
  match matcher (filters q) with
  | inl e => inl e
  | inr m =>
      match orderBy (ordering q) (filter m (rowsOf db)) with
      | inl e => inl e
      | inr sorted => inr (truncate (limit_ q) sorted)
      end
  end.

End Run.

End Query.

Module Backend.

Section Writes.
Context {R : Type} `{Table R}.

(** Modelled from the spec: the server rewrites the rows that match; one
    refused row refuses the whole statement. *)
Fixpoint updateWhere (m : R -> bool) (apply : R -> option R) (rows : list R)
    : option (list R) :=
  match rows with
  | [] => Some []
  | r :: rest =>
      match updateWhere m apply rest with
      | None => None
      | Some rest' =>
          if m r then
            match apply r with
            | Some r' => Some (r' :: rest')
            | None => None
            end
          else Some (r :: rest')
      end
  end.

(** Modelled from the spec: "update-by-identity" on the server, which is not
    in the sources. [apply] writes the keys of the update object and fails
    on a CHECK violation; [unique] is the table's PRIMARY KEY and UNIQUE
    constraints, looked at when the update writes a constrained column. *)
Definition update (apply : R -> option R) (writesKey : bool)
    (unique : list R -> bool) (fs : list (string * string)) (db : Database)
    : Error + Database :=
  match Query.matcher fs with
  | inl e => inl e
  | inr m =>
      match updateWhere m apply (rowsOf db) with
      | None => inl (mkError "new row violates check constraint")
      | Some rows' =>
          if writesKey && negb (unique rows')
          then inl (mkError "duplicate key value violates unique constraint")
          else inr (withRows rows' db)
      end
  end.

(** Modelled from the spec: "insert-one" on the server. *)
Definition insert (r : R) (unique : list R -> bool) (db : Database)
    : Error + Database :=
  let rows' := rowsOf db ++ [r] in
  if unique rows' then inr (withRows rows' db)
  else inl (mkError "duplicate key value violates unique constraint").

End Writes.

Fixpoint distinct (keys : list string) : bool :=
  match keys with
  | [] => true
  | k :: rest => negb (existsb (String.eqb k) rest) && distinct rest
  end.

(** [id uuid PRIMARY KEY], [email text UNIQUE NOT NULL] *)
Definition uniqueUsers (rows : list ProjectUsers.Row) : bool :=
  distinct (map ProjectUsers.id rows) && distinct (map ProjectUsers.email rows).

(** [id uuid PRIMARY KEY] *)
Definition uniqueLocations (rows : list TrashLocations.Row) : bool :=
  distinct (map TrashLocations.id rows).

End Backend.

(** ** The world a handler runs in *)

(** What the backend does with the next request: serve it, resolve with an
    error object, or reject the promise (the network is down). *)
Inductive Fault :=
| NoFault
| ErrorResult (e : Error)
| Rejects (e : Error).

Record World := mkWorld {
  w_db : Database;
  w_clock : nat -> Timestamp;     (* the successive readings of the clock *)
  w_uuids : nat -> Uuid;          (* what gen_random_uuid() will yield *)
  w_tick : nat;                   (* how many readings were taken *)
  w_faults : list Fault;          (* the fate of the coming requests *)
  w_console : list (string * Error)   (* console.error(label, error) *)
}.

Definition nextFault (w : World) : Fault := hd NoFault (w_faults w).

(** A request in flight has been answered: time has passed and its fate is
    consumed. *)
Definition answered (db : Database) (w : World) : World :=
  mkWorld db (w_clock w) (w_uuids w) (S (w_tick w)) (tl (w_faults w))
    (w_console w).

Inductive Promise (A : Type) :=
| Resolves (a : A)
| RejectsWith (e : Error).

Arguments Resolves {A} _.
Arguments RejectsWith {A} _.

(** Modelled from the spec: the client library and the network are not in
    the sources. Sending a request whose server side is [serve]; the server
    sees the identifier and the instant it would use for column defaults. A
    request that fails leaves the tables as they were. *)
Definition request {A : Type}
    (serve : Uuid -> Timestamp -> Database -> Error + (option A * Database))
    (w : World) : Promise (Response A) * World :=
  match nextFault w with
  | Rejects e => (RejectsWith e, answered (w_db w) w)
  | ErrorResult e => (Resolves (failed e), answered (w_db w) w)
  | NoFault =>
      match serve (w_uuids w (w_tick w)) (w_clock w (w_tick w)) (w_db w) with
      | inl e => (Resolves (failed e), answered (w_db w) w)
      | inr (a, db') => (Resolves (mkResponse a None), answered db' w)
      end
  end.

(** ** Handlers: state, exceptions and the world *)

Inductive Outcome (A : Type) :=
| Return (a : A)
| Throw (e : Error).

Arguments Return {A} _.
Arguments Throw {A} _.

(** A computation over the React state [St] of a view. *)
Definition Eff (St A : Type) : Type :=
  St -> World -> Outcome A * St * World.

Definition ret {St A : Type} (a : A) : Eff St A := fun s w => (Return a, s, w).

Definition bind {St A B : Type} (c : Eff St A) (k : A -> Eff St B) : Eff St B :=
  fun s w =>
    match c s w with
    | (Return a, s', w') => k a s' w'
    | (Throw e, s', w') => (Throw e, s', w')
    end.

Declare Scope eff_scope.
Delimit Scope eff_scope with eff.

Notation "x <- c ;; k" := (bind c (fun x => k))
  (at level 100, c at next level, right associativity) : eff_scope.
Notation "c ;; k" := (bind c (fun _ => k))
  (at level 100, right associativity) : eff_scope.

Open Scope eff_scope.

Definition throw {St A : Type} (e : Error) : Eff St A := fun s w => (Throw e, s, w).

(** [if (error) throw error;] *)
Definition throwIf {St : Type} (e : option Error) : Eff St unit :=
  match e with
  | Some err => throw err
  | None => ret tt
  end.

(** [try { body } catch (error) { handler }] *)
Definition tryCatch {St A : Type} (body : Eff St A) (handler : Error -> Eff St A)
    : Eff St A :=
  fun s w =>
    match body s w with
    | (Throw e, s', w') => handler e s' w'
    | done => done
    end.

(** [... finally { fin }]: [fin] runs on every exit and keeps the outcome,
    unless [fin] itself throws. *)
Definition finally {St A : Type} (body : Eff St A) (fin : Eff St unit) : Eff St A :=
  fun s w =>
    match body s w with
    | (o, s', w') =>
        match fin s' w' with
        | (Return _, s'', w'') => (o, s'', w'')
        | (Throw e, s'', w'') => (Throw e, s'', w'')
        end
    end.

(** A state setter of [useState]. *)
Definition setState {St : Type} (f : St -> St) : Eff St unit :=
  fun s w => (Return tt, f s, w).

Definition getState {St A : Type} (f : St -> A) : Eff St A :=
  fun s w => (Return (f s), s, w).

(** [new Date().toISOString()] *)
Definition dateNow {St : Type} : Eff St Timestamp :=
  fun s w =>
    (Return (w_clock w (w_tick w)), s,
     mkWorld (w_db w) (w_clock w) (w_uuids w) (S (w_tick w)) (w_faults w)
       (w_console w)).

(** [console.error(label, error)] *)
Definition consoleError {St : Type} (label : string) (e : Error) : Eff St unit :=
  fun s w =>
    (Return tt, s,
     mkWorld (w_db w) (w_clock w) (w_uuids w) (w_tick w) (w_faults w)
       (w_console w ++ [(label, e)])).

(** [await p]: a rejected promise is thrown at the [await]. *)
Definition await {St A : Type} (p : World -> Promise A * World) : Eff St A :=
  fun s w =>
    match p w with
    | (Resolves a, w') => (Return a, s, w')
    | (RejectsWith e, w') => (Throw e, s, w')
    end.

(** [data || []] *)
Definition orEmpty {A : Type} (d : option (list A)) : list A :=
  match d with Some rows => rows | None => [] end.

(** The select request of a query on table [R]. *)
Definition selectRequest {R : Type} `{Table R} (q : Query.t)
    : World -> Promise (Response (list R)) * World :=
  request (fun _ _ db =>
    match Query.run q db with
    | inl e => inl e
    | inr rows => inr (Some rows, db)
    end).

(** A write request; the [data] of its response is [null]. *)
Definition writeRequest
    (serve : Uuid -> Timestamp -> Database -> Error + Database)
    : World -> Promise (Response unit) * World :=
  request (fun fresh now db =>
    match serve fresh now db with
    | inl e => inl e
    | inr db' => inr (None, db')
    end).

(** The error a request sent in world [w] ends with, if it fails: the reason
    of the rejection, or the [error] of the resolved response. *)
Definition failure {A : Type} (req : World -> Promise (Response A) * World)
    (w : World) : option Error :=
  match fst (req w) with
  | RejectsWith e => Some e
  | Resolves r => error_ r
  end.

(** A filter value of a [<select>]: ['all'] or one member of an enum. *)
Inductive OrAll (A : Type) :=
| all
| only (a : A).

Arguments all {A}.
Arguments only {A} _.

(** [o?.f()]: [None] is [undefined]. *)
Definition optionalCall {A B : Type} (o : option A) (f : A -> B) : option B :=
  match o with
  | Some a => Some (f a)
  | None => None
  end.

(** ToBoolean of a value that is a boolean or [undefined]. *)
Definition toBoolean (v : option bool) : bool :=
  match v with
  | Some b => b
  | None => false
  end.

(** ** The Users view *)

Module UsersView.

Import ProjectUsers.

Record State := mkState {
  users : list Row;
  loading : bool;
  searchQuery : string;
  editingUser : option Row;
  editForm : Update;
  showAddForm : bool;
  newUserForm : NewUserForm
}.

(** The [useState] initial values. *)
Definition initial : State :=
  mkState [] true "" None noUpdate false (mkForm "" "" "").

Definition setUsers (v : list Row) : Eff State unit :=
  setState (fun s => mkState v (loading s) (searchQuery s) (editingUser s)
                       (editForm s) (showAddForm s) (newUserForm s)).

Definition setLoading (v : bool) : Eff State unit :=
  setState (fun s => mkState (users s) v (searchQuery s) (editingUser s)
                       (editForm s) (showAddForm s) (newUserForm s)).

Definition setSearchQuery (v : string) : Eff State unit :=
  setState (fun s => mkState (users s) (loading s) v (editingUser s)
                       (editForm s) (showAddForm s) (newUserForm s)).

Definition setEditingUser (v : option Row) : Eff State unit :=
  setState (fun s => mkState (users s) (loading s) (searchQuery s) v
                       (editForm s) (showAddForm s) (newUserForm s)).

Definition setEditForm (v : Update) : Eff State unit :=
  setState (fun s => mkState (users s) (loading s) (searchQuery s)
                       (editingUser s) v (showAddForm s) (newUserForm s)).

Definition setShowAddForm (v : bool) : Eff State unit :=
  setState (fun s => mkState (users s) (loading s) (searchQuery s)
                       (editingUser s) (editForm s) v (newUserForm s)).

Definition setNewUserForm (v : NewUserForm) : Eff State unit :=
  setState (fun s => mkState (users s) (loading s) (searchQuery s)
                       (editingUser s) (editForm s) (showAddForm s) v).

Definition selectUsers : World -> Promise (Response (list Row)) * World :=
  selectRequest (Query.order "created_at" false Query.select).

Definition fetchUsers : Eff State unit :=
  setLoading true ;;
  finally
    (tryCatch
       (r <- await selectUsers ;;
        throwIf (error_ r) ;;
        setUsers (orEmpty (data r)))
       (fun e => consoleError "Error fetching users:" e))
    (setLoading false).

(** [{ is_active: !currentStatus, updated_at: t }] *)
Definition toggleUpdate (currentStatus : bool) (t : Timestamp) : Update :=
  mkUpdate None None None None (Some (negb currentStatus)) None None (Some t).

(** Whether an update object writes [id] or [email]. *)
Definition writesKey (p : Update) : bool :=
  match u_id p, u_email p with
  | None, None => false
  | _, _ => true
  end.

(** [.update(p).eq('id', userId)] *)
Definition updateUser (p : Update) (userId : Uuid)
    : World -> Promise (Response unit) * World :=
  writeRequest (fun _ _ =>
    Backend.update (fun r => Some (applyUpdate p r)) (writesKey p)
      Backend.uniqueUsers [("id", userId)]).

(** [.insert([form])] *)
Definition insertUser (form : NewUserForm)
    : World -> Promise (Response unit) * World :=
  writeRequest (fun fresh now =>
    Backend.insert (insertDefaults form fresh now) Backend.uniqueUsers).

Definition handleToggleActive (userId : Uuid) (currentStatus : bool)
    : Eff State unit :=
  tryCatch
    (t <- dateNow ;;
     r <- await (updateUser (toggleUpdate currentStatus t) userId) ;;
     throwIf (error_ r) ;;
     fetchUsers)
    (fun e => consoleError "Error toggling user status:" e).

Definition handleEditClick (user : Row) : Eff State unit :=
  setEditingUser (Some user) ;;
  setEditForm (ofRow user).

(** [{ ...editForm, updated_at: t }] *)
Definition editUpdate (form : Update) (t : Timestamp) : Update :=
  mkUpdate (u_id form) (u_email form) (u_full_name form) (u_phone form)
    (u_is_active form) (u_reports_count form) (u_created_at form) (Some t).

Definition handleSaveEdit : Eff State unit :=
  editing <- getState editingUser ;;
  match editing with
  | None => ret tt
  | Some user =>
      tryCatch
        (form <- getState editForm ;;
         t <- dateNow ;;
         r <- await (updateUser (editUpdate form t) (id user)) ;;
         throwIf (error_ r) ;;
         fetchUsers ;;
         setEditingUser None ;;
         setEditForm noUpdate)
        (fun e => consoleError "Error updating user:" e)
  end.

Definition handleAddUser : Eff State unit :=
  tryCatch
    (form <- getState newUserForm ;;
     r <- await (insertUser form) ;;
     throwIf (error_ r) ;;
     fetchUsers ;;
     setShowAddForm false ;;
     setNewUserForm (mkForm "" "" ""))
    (fun e => consoleError "Error adding user:" e).

(** The "Деактивировать / Активировать" button of a displayed row. *)
Definition clickToggle (user : Row) : Eff State unit :=
  handleToggleActive (id user) (is_active user).

Section Filter.

(** [String.prototype.toLowerCase] of the host. *)
Variable toLowerCase : string -> string.

Definition matchesUser (searchQuery : string) (user : Row) : bool :=
  (JsString.includes (toLowerCase (full_name user)) (toLowerCase searchQuery)
   || JsString.includes (toLowerCase (email user)) (toLowerCase searchQuery))
  || toBoolean
       (optionalCall (phone user) (fun p =>
          JsString.includes (toLowerCase p) (toLowerCase searchQuery))).

Definition filteredUsers (s : State) : list Row :=
  filter (matchesUser (searchQuery s)) (users s).

End Filter.

End UsersView.

(** ** The Map view *)

Module MapView.

(** The embedded resource of [project_users(full_name)]. *)
Definition reporter (db : Database) (r : TrashLocations.Row) : option string :=
  match TrashLocations.user_id r with
  | None => None
  | Some uid =>
      match find (fun u => ProjectUsers.id u =? uid) (project_users db) with
      | Some u => Some (ProjectUsers.full_name u)
      | None => None
      end
  end.

Import TrashLocations.

Definition StatusFilter := OrAll Status.

Record State := mkState {
  locations : list Joined;
  loading : bool;
  statusFilter : StatusFilter;
  selectedLocation : option Joined
}.

Definition initial : State := mkState [] true all None.

Definition setLocations (v : list Joined) : Eff State unit :=
  setState (fun s => mkState v (loading s) (statusFilter s)
                       (selectedLocation s)).

Definition setLoading (v : bool) : Eff State unit :=
  setState (fun s => mkState (locations s) v (statusFilter s)
                       (selectedLocation s)).

Definition setStatusFilter (v : StatusFilter) : Eff State unit :=
  setState (fun s => mkState (locations s) (loading s) v
                       (selectedLocation s)).

Definition setSelectedLocation (v : option Joined) : Eff State unit :=
  setState (fun s => mkState (locations s) (loading s) (statusFilter s) v).

(** The query [fetchLocations] builds for a status filter. *)
Definition locationsQuery (chosen : StatusFilter) : Query.t :=
  let query := Query.order "created_at" false Query.select in
  match chosen with
  | all => query
  | only st => Query.eq "status" (statusToken st) query
  end.

Definition selectLocations (chosen : StatusFilter)
    : World -> Promise (Response (list Joined)) * World :=
  request (fun _ _ db =>
    match Query.run (locationsQuery chosen) db with
    | inl e => inl e
    | inr rows => inr (Some (map (fun r => mkJoined r (reporter db r)) rows), db)
    end).

Definition fetchLocations : Eff State unit :=
  setLoading true ;;
  finally
    (tryCatch
       (chosen <- getState statusFilter ;;
        r <- await (selectLocations chosen) ;;
        throwIf (error_ r) ;;
        setLocations (orEmpty (data r)))
       (fun e => consoleError "Error fetching locations:" e))
    (setLoading false).

Definition writesKey (p : Update) : bool :=
  match u_id p with
  | None => false
  | Some _ => true
  end.

(** [.update(p).eq('id', locationId)] *)
Definition updateLocation (p : Update) (locationId : Uuid)
    : World -> Promise (Response unit) * World :=
  writeRequest (fun _ _ =>
    Backend.update (applyUpdate p) (writesKey p) Backend.uniqueLocations
      [("id", locationId)]).

Definition handleStatusChange (locationId : Uuid) (newStatus : string)
    : Eff State unit :=
  tryCatch
    (t <- dateNow ;;
     let updates := statusUpdate newStatus t in
     updates <- (if newStatus =? "cleaned"
                 then t' <- dateNow ;; ret (setCleanedAt t' updates)
                 else ret updates) ;;
     r <- await (updateLocation updates locationId) ;;
     throwIf (error_ r) ;;
     fetchLocations ;;
     setSelectedLocation None)
    (fun e => consoleError "Error updating status:" e).

(** A button of the detail panel: present only for an offered target. *)
Definition clickTransition (selected : Joined) (target : string)
    : option (Eff State unit) :=
  if existsb (String.eqb target)
       (MapHelpers.offeredTransitions (status (row selected)))
  then Some (handleStatusChange (id (row selected)) target)
  else None.

End MapView.

(** ** The Logs view *)

Module LogsView.

Import SystemLogs.

Record State := mkState {
  logs : list Row;
  loading : bool;
  filterLevel : OrAll LogLevel;
  searchQuery : string
}.

Definition initial : State := mkState [] true all "".

Definition setLogs (v : list Row) : Eff State unit :=
  setState (fun s => mkState v (loading s) (filterLevel s) (searchQuery s)).

Definition setLoading (v : bool) : Eff State unit :=
  setState (fun s => mkState (logs s) v (filterLevel s) (searchQuery s)).

Definition setFilterLevel (v : OrAll LogLevel) : Eff State unit :=
  setState (fun s => mkState (logs s) (loading s) v (searchQuery s)).

Definition setSearchQuery (v : string) : Eff State unit :=
  setState (fun s => mkState (logs s) (loading s) (filterLevel s) v).

(** The query [fetchLogs] builds for a level filter. *)
Definition logsQuery (level : OrAll LogLevel) : Query.t :=
  let query := Query.limit 100 (Query.order "created_at" false Query.select) in
  match level with
  | all => query
  | only l => Query.eq "log_level" (logLevelToken l) query
  end.

Definition selectLogs (level : OrAll LogLevel)
    : World -> Promise (Response (list Row)) * World :=
  selectRequest (logsQuery level).

Definition fetchLogs : Eff State unit :=
  setLoading true ;;
  finally
    (tryCatch
       (level <- getState filterLevel ;;
        r <- await (selectLogs level) ;;
        throwIf (error_ r) ;;
        setLogs (orEmpty (data r)))
       (fun e => consoleError "Error fetching logs:" e))
    (setLoading false).

Section Filter.

Variable toLowerCase : string -> string.

Definition matchesLog (searchQuery : string) (log : Row) : bool :=
  JsString.includes (toLowerCase (action log)) (toLowerCase searchQuery)
  || toBoolean
       (optionalCall (entity_type log) (fun t =>
          JsString.includes (toLowerCase t) (toLowerCase searchQuery))).

Definition filteredLogs (s : State) : list Row :=
  filter (matchesLog (searchQuery s)) (logs s).

End Filter.

End LogsView.

(** ** Vocabulary of the statements *)

(** The world after one reading of the clock. *)
Definition ticked (w : World) : World :=
  mkWorld (w_db w) (w_clock w) (w_uuids w) (S (w_tick w)) (w_faults w)
    (w_console w).

(** The world after [console.error(label, e)]. *)
Definition logged (label : string) (e : Error) (w : World) : World :=
  mkWorld (w_db w) (w_clock w) (w_uuids w) (w_tick w) (w_faults w)
    (w_console w ++ [(label, e)]).

(** A handler that ends normally from every state, in every world. *)
Definition NeverThrows {St : Type} (h : Eff St unit) : Prop :=
  forall (s : St) (w : World), exists s' w', h s w = (Return tt, s', w').

(** The update object [handleStatusChange] has built when it sends its
    request, and the world at that point: one reading of the clock for
    [updated_at], a second one for [cleaned_at] when the target is
    ['cleaned']. *)
Definition statusUpdates (newStatus : string) (w : World)
    : TrashLocations.Update * World :=
  let updates := TrashLocations.statusUpdate newStatus (w_clock w (w_tick w)) in
  if newStatus =? "cleaned"
  then (TrashLocations.setCleanedAt (w_clock w (S (w_tick w))) updates,
        ticked (ticked w))
  else (updates, ticked w).

(** What a status transition may not touch: every column but [status] and
    [updated_at], and [cleaned_at] too unless the target is ['cleaned']. *)
Definition TransitionFrame (newStatus : string)
    (r r' : TrashLocations.Row) : Prop :=
  TrashLocations.id r' = TrashLocations.id r
  /\ TrashLocations.user_id r' = TrashLocations.user_id r
  /\ TrashLocations.latitude r' = TrashLocations.latitude r
  /\ TrashLocations.longitude r' = TrashLocations.longitude r
  /\ TrashLocations.description r' = TrashLocations.description r
  /\ TrashLocations.trash_type r' = TrashLocations.trash_type r
  /\ TrashLocations.priority r' = TrashLocations.priority r
  /\ TrashLocations.image_url r' = TrashLocations.image_url r
  /\ TrashLocations.created_at r' = TrashLocations.created_at r
  /\ (newStatus <> "cleaned" ->
      TrashLocations.cleaned_at r' = TrashLocations.cleaned_at r).

(** The row the specification expects after a transition to [target] sent
    in world [w]: the new status, the reading of the clock as [updated_at],
    and the next reading as [cleaned_at] if and only if the target is
    [cleaned]. *)
Definition transitioned (target : Status) (w : World)
    (r : TrashLocations.Row) : TrashLocations.Row :=
  TrashLocations.mkRow (TrashLocations.id r) (TrashLocations.user_id r)
    (TrashLocations.latitude r) (TrashLocations.longitude r)
    (TrashLocations.description r) (TrashLocations.trash_type r)
    target (TrashLocations.priority r) (TrashLocations.image_url r)
    (TrashLocations.created_at r) (w_clock w (w_tick w))
    (match target with
     | cleaned => Some (w_clock w (S (w_tick w)))
     | _ => TrashLocations.cleaned_at r
     end).

(** The filter the server applies for the level chosen in the Logs view. *)
Definition levelMatches (level : OrAll LogLevel) (l : SystemLogs.Row) : bool :=
  match level with
  | all => true
  | only lvl => logLevelToken (SystemLogs.log_level l) =? logLevelToken lvl
  end.

(** The first row of [project_users] with a given identity. *)
Definition rowOf (userId : Uuid) (db : Database) : option ProjectUsers.Row :=
  find (fun r => ProjectUsers.id r =? userId) (project_users db).



(** The predicate of the specification: after lowering both, the query
    occurs inside the field. *)
Definition CaseInsensitiveSubstring (toLowerCase : string -> string)
    (query field : string) : Prop :=
  JsString.Substring (toLowerCase query) (toLowerCase field).


(** What a swallowed failure leaves in the world: one more line on the
    console, and the tables as they were. *)
Definition Swallowed (label : string) (e : Error) (w w' : World) : Prop :=
  w_console w' = w_console w ++ [(label, e)] /\ w_db w' = w_db w.

(** ** Sample data *)

(** A lowering of the letters A to Z, to run the filters on examples. *)
Definition lowerAscii (c : ascii) : ascii :=
  let n := nat_of_ascii c in
  if ((65 <=? n) && (n <=? 90))%nat then ascii_of_nat (n + 32) else c.

Fixpoint asciiToLowerCase (s : string) : string :=
  match s with
  | EmptyString => EmptyString
  | String c rest => String (lowerAscii c) (asciiToLowerCase rest)
  end.


(** Three users in the manner of the migration's sample data, in ASCII, the
    last one without a phone. *)
Definition maria : ProjectUsers.Row :=
  ProjectUsers.mkRow "u2" "user2@example.com" "Maria Sidorova"
    (Some "+7 999 234-56-78") true 3 1001 1001.

Definition sampleUsers : list ProjectUsers.Row :=
  [ ProjectUsers.mkRow "u1" "user1@example.com" "Ivan Petrov"
      (Some "+7 999 123-45-67") true 5 1000 1000;
    maria;
    ProjectUsers.mkRow "u3" "user3@example.com" "Alexey Kozlov"
      None true 8 1002 1002 ].

Definition sampleLocations : list TrashLocations.Row :=
  [ TrashLocations.mkRow "l1" (Some "u1") 5575580000 3761730000
      "Plastic bottles" plastic reported medium None 2000 2000 None;
    TrashLocations.mkRow "l2" (Some "u2") 5576000000 3762000000
      "Construction waste" mixed cleaned high None 2001 2500 (Some 2500%Z);
    TrashLocations.mkRow "l3" None 5574000000 3760000000
      "Dump in the woods" other in_progress medium None 2002 2002 None ].

Definition sampleLogs : list SystemLogs.Row :=
  [ SystemLogs.mkRow "g1" info "user_login" (Some "a1") (Some "admin_users")
      None (JObject [("message", JString "login")]) None 3000;
    SystemLogs.mkRow "g2" warning "failed_login_attempt" None
      (Some "admin_users") None (JObject []) None 3001;
    SystemLogs.mkRow "g3" error "database_connection_error" None None
      None (JObject []) None 3002 ].

Definition sampleDatabase : Database :=
  mkDatabase sampleUsers sampleLocations sampleLogs.

(** A world over the sample tables: the clock reads 5000, 5001, ... *)
Definition sampleWorld (faults : list Fault) : World :=
  mkWorld sampleDatabase (fun n => (5000 + Z.of_nat n)%Z) (fun _ => "u-new")
    0 faults [].

Definition networkDown : Error := mkError "TypeError: Failed to fetch".

(** The Users view once the sample users are loaded, with the add form open
    and filled in. *)
Definition loadedUsersView (form : ProjectUsers.NewUserForm)
    : UsersView.State :=
  UsersView.mkState sampleUsers false "" None ProjectUsers.noUpdate true form.



(** ** The forms and the footer of the Users view *)

Module UsersForms.

Import ProjectUsers.
Import UsersView.

(** [onChange] of the name input of the row being edited:
    [setEditForm({ ...editForm, full_name: v })]. *)
Definition changeEditFullName (v : string) : Eff State unit :=
  form <- getState editForm ;;
  setEditForm
    (mkUpdate (u_id form) (u_email form) (Some v) (u_phone form)
       (u_is_active form) (u_reports_count form) (u_created_at form)
       (u_updated_at form)).

Definition changeEditEmail (v : string) : Eff State unit :=
  form <- getState editForm ;;
  setEditForm
    (mkUpdate (u_id form) (Some v) (u_full_name form) (u_phone form)
       (u_is_active form) (u_reports_count form) (u_created_at form)
       (u_updated_at form)).

Definition changeEditPhone (v : string) : Eff State unit :=
  form <- getState editForm ;;
  setEditForm
    (mkUpdate (u_id form) (u_email form) (u_full_name form) (Some (Some v))
       (u_is_active form) (u_reports_count form) (u_created_at form)
       (u_updated_at form)).

(** The "Отмена" button of a row being edited. *)
Definition cancelEdit : Eff State unit :=
  setEditingUser None ;;
  setEditForm noUpdate.

(** The "Добавить пользователя" button. *)
Definition openAddForm : Eff State unit := setShowAddForm true.

(** [onChange] of the three inputs of the add form. *)
Definition changeNewEmail (v : string) : Eff State unit :=
  form <- getState newUserForm ;;
  setNewUserForm (mkForm v (f_full_name form) (f_phone form)).

Definition changeNewFullName (v : string) : Eff State unit :=
  form <- getState newUserForm ;;
  setNewUserForm (mkForm (f_email form) v (f_phone form)).

Definition changeNewPhone (v : string) : Eff State unit :=
  form <- getState newUserForm ;;
  setNewUserForm (mkForm (f_email form) (f_full_name form) v).

(** The "Отмена" button of the add form. *)
Definition cancelAdd : Eff State unit :=
  setShowAddForm false ;;
  setNewUserForm (mkForm "" "" "").

(** The three counters under the table. *)
Definition totalUsers (s : State) : nat := length (users s).

Definition activeUsers (s : State) : nat :=
  length (filter (fun u => is_active u) (users s)).

(** The third counter adds numbers of the host, which are doubles: [+] is
    the host's addition, taken as a parameter. *)
Section Numbers.

Variable plus : Z -> Z -> Z.

Definition totalReports (s : State) : Z :=
  fold_left (fun sum u => plus sum (reports_count u)) (users s) 0%Z.

End Numbers.

End UsersForms.

(** ** The markers of the Map view *)

Module MapMarkers.

Import TrashLocations.

(** The three values interpolated into the balloon markup. *)
Record Balloon := mkBalloon {
  b_description : string;
  b_typeLabel : JsValue;
  b_statusLabel : JsValue
}.

(** A placemark: where it stands, what its balloon shows, its preset, and
    the location its click handler hands to [setSelectedLocation]. *)
Record Placemark := mkPlacemark {
  coordinates : Z * Z;
  balloonContent : Balloon;
  preset : string;
  opens : Joined
}.

(** What the view holds beside its React state: whether the map script has
    defined [window.ymaps], whether the map [div] is mounted, the
    [geoObjects] of the map instance once there is one, and the callbacks
    handed to [ymaps.ready], each with the locations of the render that
    made it. *)
Record Refs := mkRefs {
  ymaps : bool;
  mapRef : bool;
  mapInstanceRef : option (list Placemark);
  pendingReady : list (list Joined)
}.

Definition initialRefs (scriptLoaded : bool) : Refs :=
  mkRefs scriptLoaded true None [].

Definition placemarkOf (location : Joined) : Placemark :=
  mkPlacemark
    (latitude (row location), longitude (row location))
    (mkBalloon (description (row location))
       (MapHelpers.getTrashTypeLabel (trashTypeToken (trash_type (row location))))
       (MapHelpers.getStatusLabel (statusToken (status (row location)))))
    (MapHelpers.getMarkerPreset (statusToken (status (row location))))
    location.

(** [updateMapMarkers], for the [locations] of the render it belongs to. *)
Definition updateMapMarkers (locations : list Joined) (refs : Refs) : Refs :=
  match mapInstanceRef refs with
  | None => refs
  | Some _ =>
      if negb (ymaps refs) then refs
      else
        mkRefs (ymaps refs) (mapRef refs)
          (Some (fold_left (fun objects location =>
                              objects ++ [placemarkOf location])
                   locations []))
          (pendingReady refs)
  end.

(** The effect that runs when [locations] has changed. *)
Definition locationsEffect (locations : list Joined) (refs : Refs) : Refs :=
  if ymaps refs && mapRef refs
     && match mapInstanceRef refs with None => true | Some _ => false end
  then mkRefs (ymaps refs) (mapRef refs) (mapInstanceRef refs)
         (pendingReady refs ++ [locations])
  else
    match mapInstanceRef refs with
    | Some _ => updateMapMarkers locations refs
    | None => refs
    end.

(** One callback of [ymaps.ready]: a new map becomes the instance and gets
    the markers of the render that registered the callback. *)
Definition readyCallback (locations : list Joined) (refs : Refs) : Refs :=
  updateMapMarkers locations
    (mkRefs (ymaps refs) (mapRef refs) (Some []) (pendingReady refs)).

(** The map script is ready: the callbacks run in the order they were
    registered. *)
Definition scriptReady (refs : Refs) : Refs :=
  fold_left (fun r locations => readyCallback locations r)
    (pendingReady refs)
    (mkRefs (ymaps refs) (mapRef refs) (mapInstanceRef refs) []).

(** A click on a placemark. *)
Definition clickPlacemark (p : Placemark) : Eff MapView.State unit :=
  MapView.setSelectedLocation (Some (opens p)).

(** The close button of the detail panel. *)
Definition closePanel : Eff MapView.State unit :=
  MapView.setSelectedLocation None.

(** The counter "Всего меток". *)
Definition totalMarkers (s : MapView.State) : nat :=
  length (MapView.locations s).

End MapMarkers.

(** ** Icons and badges of the Logs view *)

Module LogsHelpers.

(** A [switch] with no [default]: the function falls off its end and yields
    [undefined], here [None]. *)
Definition switchOrUndefined {A : Type} (x : string)
    (cases : list (string * A)) : option A :=
  switch x (map (fun kv => (fst kv, Some (snd kv))) cases) None.

Definition logIconCases : list (string * MapHelpers.Icon) :=
  [ ("info", MapHelpers.mkIcon "Info" "w-5 h-5 text-blue-500");
    ("warning", MapHelpers.mkIcon "AlertTriangle" "w-5 h-5 text-yellow-500");
    ("error", MapHelpers.mkIcon "AlertCircle" "w-5 h-5 text-orange-500");
    ("critical", MapHelpers.mkIcon "XCircle" "w-5 h-5 text-red-500") ].

Definition getLogIcon (level : string) : option MapHelpers.Icon :=
  switchOrUndefined level logIconCases.

Definition logBadgeCases : list (string * string) :=
  [ ("info", "bg-blue-100 text-blue-800");
    ("warning", "bg-yellow-100 text-yellow-800");
    ("error", "bg-orange-100 text-orange-800");
    ("critical", "bg-red-100 text-red-800") ].

Definition getLogBadgeColor (level : string) : option string :=
  switchOrUndefined level logBadgeCases.

End LogsHelpers.

(** ** The shell *)

Module Dashboard.

Inductive View := map_ | logs_ | users_.

Definition viewToken (v : View) : string :=
  match v with map_ => "map" | logs_ => "logs" | users_ => "users" end.

Record State := mkState {
  currentView : View;
  sidebarOpen : bool
}.

Definition initial : State := mkState map_ true.

Definition setCurrentView (v : View) : Eff State unit :=
  setState (fun s => mkState v (sidebarOpen s)).

Definition setSidebarOpen (v : bool) : Eff State unit :=
  setState (fun s => mkState (currentView s) v).

Record MenuItem := mkItem { item_id : View; item_icon : string; item_label : string }.

Definition menuItems : list MenuItem :=
  [ mkItem map_ "MapPin" "Карта мусора";
    mkItem logs_ "FileText" "Логи системы";
    mkItem users_ "Users" "Пользователи" ].

(** [onClick] of a menu button. *)
Definition clickMenu (item : MenuItem) : Eff State unit :=
  setCurrentView (item_id item).

(** The class list of a menu button. *)
Definition menuClass (s : State) (item : MenuItem) : string :=
  if viewToken (currentView s) =? viewToken (item_id item)
  then "bg-green-50 text-green-700 font-medium"
  else "text-gray-700 hover:bg-gray-50".

(** The header button: [setSidebarOpen(!sidebarOpen)]. *)
Definition toggleSidebar : Eff State unit :=
  open <- getState sidebarOpen ;;
  setSidebarOpen (negb open).

(** The class of the [aside]. *)
Definition sidebarWidth (s : State) : string :=
  if sidebarOpen s then "w-64" else "w-0".

(** The components under [main]: each of the three lines
    [{currentView === v && <V />}] contributes its view or nothing. *)
Definition mounted (s : State) : list View :=
  (if viewToken (currentView s) =? "map" then [map_] else [])
  ++ (if viewToken (currentView s) =? "logs" then [logs_] else [])
  ++ (if viewToken (currentView s) =? "users" then [users_] else []).

Section SignOut.

(** [signOut] of the authentication context, which is not in the sources. *)
Variable signOut : Eff State unit.

Definition handleSignOut : Eff State unit :=
  tryCatch signOut (fun e => consoleError "Error signing out:" e).

End SignOut.

End Dashboard.

(** ** Vocabulary of the further statements *)

(** The row a toggle with flag [currentStatus] leaves, read at [t]. *)
Definition setActive (currentStatus : bool) (t : Timestamp)
    (r : ProjectUsers.Row) : ProjectUsers.Row :=
  ProjectUsers.mkRow (ProjectUsers.id r) (ProjectUsers.email r)
    (ProjectUsers.full_name r) (ProjectUsers.phone r) (negb currentStatus)
    (ProjectUsers.reports_count r) (ProjectUsers.created_at r) t.

(** An operator opens a row for editing, types a name, an email and a
    phone, and saves. *)
Definition editAndSave (user : ProjectUsers.Row) (name mail tel : string)
    : Eff UsersView.State unit :=
  UsersView.handleEditClick user ;;
  UsersForms.changeEditFullName name ;;
  UsersForms.changeEditEmail mail ;;
  UsersForms.changeEditPhone tel ;;
  UsersView.handleSaveEdit.

(** The row that run is expected to leave, read at [t]: what was typed, and
    every other column as the view held it when editing began. *)
Definition editedRow (user : ProjectUsers.Row) (name mail tel : string)
    (t : Timestamp) : ProjectUsers.Row :=
  ProjectUsers.mkRow (ProjectUsers.id user) mail name (Some tel)
    (ProjectUsers.is_active user) (ProjectUsers.reports_count user)
    (ProjectUsers.created_at user) t.

(** The view while that row is open for editing with what was typed. *)
Definition editingState (user : ProjectUsers.Row) (name mail tel : string)
    (s : UsersView.State) : UsersView.State :=
  UsersView.mkState (UsersView.users s) (UsersView.loading s)
    (UsersView.searchQuery s) (Some user)
    (ProjectUsers.mkUpdate (Some (ProjectUsers.id user)) (Some mail)
       (Some name) (Some (Some tel)) (Some (ProjectUsers.is_active user))
       (Some (ProjectUsers.reports_count user))
       (Some (ProjectUsers.created_at user))
       (Some (ProjectUsers.updated_at user)))
    (UsersView.showAddForm s) (UsersView.newUserForm s).

(** The filter the server applies for the status chosen in the Map view. *)
Definition statusMatches (chosen : MapView.StatusFilter)
    (r : TrashLocations.Row) : bool :=
  match chosen with
  | all => true
  | only st => statusToken (TrashLocations.status r) =? statusToken st
  end.

(** A location with its embedded reporter, as the select of the Map view
    returns it. *)
Definition joined (db : Database) (r : TrashLocations.Row)
    : TrashLocations.Joined :=
  TrashLocations.mkJoined r (MapView.reporter db r).

(** What a served fetch of the Map view displays for a chosen status. *)
Definition displayedLocations (chosen : MapView.StatusFilter) (db : Database)
    : list TrashLocations.Joined :=
  map (joined db)
    (Query.sortDesc TrashLocations.created_at
       (filter (statusMatches chosen) (trash_locations db))).

(** The integers every double holds exactly, and which the host adds
    without rounding: those strictly between -2^53 and 2^53. *)
Definition safeInteger (z : Z) : Prop := (- 2 ^ 53 < z < 2 ^ 53)%Z.

(** An addition that is exact as long as the operands and their sum are
    safe integers. *)
Definition ExactOnSafeIntegers (plus : Z -> Z -> Z) : Prop :=
  forall a b : Z,
    safeInteger a -> safeInteger b -> safeInteger (a + b) ->
    plus a b = (a + b)%Z.

(** The sum of the report counts of a table, as an integer. *)
Definition exactReports (rows : list ProjectUsers.Row) : Z :=
  fold_left (fun sum u => (sum + ProjectUsers.reports_count u)%Z) rows 0%Z.

(** A table whose report counts are not negative and add up to a safe
    integer. *)
Definition CountableReports (rows : list ProjectUsers.Row) : Prop :=
  Forall (fun u => (0 <= ProjectUsers.reports_count u)%Z) rows
  /\ safeInteger (exactReports rows).

(** The double nearest to an integer, ties going to the even significand:
    an integer of at most 53 bits is kept, a longer one loses its low bits.
    Magnitudes from 2^1024 on, which the host turns into [Infinity], are
    left out. *)
Definition roundToDouble (z : Z) : Z :=
  let a := Z.abs z in
  let e := (Z.log2 a - 52)%Z in
  if (e <=? 0)%Z then z
  else
    let q := Z.shiftr a e in
    let r := (a - Z.shiftl q e)%Z in
    let half := Z.shiftl 1 (e - 1) in
    let q' := if (r <? half)%Z then q
              else if (half <? r)%Z then (q + 1)%Z
              else if Z.even q then q else (q + 1)%Z in
    (Z.sgn z * Z.shiftl q' e)%Z.

(** The host's [+] on two doubles that hold integers: the exact sum,
    rounded. *)
Definition doubleAdd (a b : Z) : Z := roundToDouble (a + b).

(** The colour of a status on the map and in the detail panel. *)
Definition statusColour (st : Status) : string :=
  match st with
  | reported => "red"
  | in_progress => "blue"
  | cleaned => "green"
  | rejected => "gray"
  end.

(** The colour of a log level in the journal. *)
Definition levelColour (lvl : LogLevel) : string :=
  match lvl with
  | info => "blue"
  | warning => "yellow"
  | error => "orange"
  | critical => "red"
  end.
(** * Properties of the embedding *)

(** ** Strings *)

Module JsStringFacts.

Import JsString.

Lemma prefix_app (p s : string) :
  prefix p s = true <-> exists t, s = (p ++ t)%string.
Proof.
  revert s; induction p as [|c p IH]; intros s; simpl.
  - split; [intros _; now exists s | intros _; now destruct s].
  - destruct s as [|d s]; simpl.
    + split; [discriminate | intros [t Ht]; discriminate].
    + destruct (ascii_dec c d) as [->|Hcd].
      * rewrite IH. split; intros [t Ht]; exists t; congruence.
      * split; [discriminate | intros [t Ht]; congruence].
Qed.

Lemma includes_Substring (s q : string) :
  includes s q = true <-> Substring q s.
Proof.
  unfold Substring. induction s as [|c s IH]; cbn [includes].
  - destruct (prefix q "") eqn:Hp.
    + split; [intros _ | reflexivity].
      apply prefix_app in Hp as [t Ht]. now exists "", t.
    + split; [discriminate|]. intros ([|d pre] & post & H).
      * assert (prefix q "" = true) by (apply prefix_app; now exists post).
        congruence.
      * discriminate.
  - destruct (prefix q (String c s)) eqn:Hp.
    + split; [intros _ | reflexivity].
      apply prefix_app in Hp as [t Ht]. now exists "", t.
    + rewrite IH. split.
      * intros (pre & post & ->). now exists (String c pre), post.
      * intros ([|d pre] & post & H).
        -- assert (prefix q (String c s) = true)
             by (apply prefix_app; now exists post).
           congruence.
        -- simpl in H. injection H as _ ->. now exists pre, post.
Qed.

Lemma includes_empty (s : string) : includes s "" = true.
Proof. destruct s; reflexivity. Qed.

End JsStringFacts.

(** ** The status workflow of the detail panel *)

Section Workflow.

Import MapHelpers.

Lemma offeredTransitions_table (cur : Status) :
  offeredTransitions cur =
  match cur with
  | reported => ["in_progress"; "cleaned"; "rejected"]
  | in_progress => ["cleaned"; "rejected"]
  | cleaned => ["in_progress"; "rejected"]
  | rejected => ["in_progress"; "cleaned"]
  end.
Proof. destruct cur; reflexivity. Qed.

Lemma statusToken_inj (a b : Status) : statusToken a = statusToken b -> a = b.
Proof. destruct a, b; simpl; intros H; try reflexivity; discriminate H. Qed.

Lemma parseStatus_token (s : Status) : parseStatus (statusToken s) = Some s.
Proof. destruct s; reflexivity. Qed.

Lemma parseStatus_Some (tok : string) (s : Status) :
  parseStatus tok = Some s -> tok = statusToken s.
Proof.
  unfold parseStatus. intros H.
  apply find_some in H as [_ H]. now apply String.eqb_eq in H.
Qed.

(** C1, as stated, fails: a record that is in progress is another status
    than [reported], yet no button of its panel targets [reported]. *)
Lemma in_progress_panel_lacks_reported :
  in_progress <> reported
  /\ ~ In (statusToken reported) (offeredTransitions in_progress).
Proof.
  split; [discriminate|]. simpl. intros [H|[H|[]]]; discriminate H.
Qed.

(** C1, amended: the panel has a button for each of [in_progress], [cleaned]
    and [rejected] that is not the current status, and for nothing else: the
    current status is never offered, [reported] is never offered, which leaves
    three buttons on a reported record and two on any other; a click on a
    target has a handler exactly when the target is offered. *)
Theorem offered_transitions_characterised (cur : Status) :
  (forall target : Status,
      In (statusToken target) (offeredTransitions cur)
      <-> target <> cur /\ target <> reported)
  /\ (forall tok : string,
         In tok (offeredTransitions cur) ->
         exists target : Status, tok = statusToken target)
  /\ NoDup (offeredTransitions cur)
  /\ length (offeredTransitions cur)
     = (if Status_eqb cur reported then 3 else 2)
  /\ (forall (selected : TrashLocations.Joined) (tok : string),
         MapView.clickTransition selected tok
         = if existsb (String.eqb tok)
                (offeredTransitions
                   (TrashLocations.status (TrashLocations.row selected)))
           then Some (MapView.handleStatusChange
                        (TrashLocations.id (TrashLocations.row selected)) tok)
           else None).
Proof.
  repeat split.
  - rewrite offeredTransitions_table in H.
    intros ->. destruct cur; simpl in H; intuition discriminate.
  - rewrite offeredTransitions_table in H.
    intros ->. destruct cur; simpl in H; intuition discriminate.
  - intros [Hc Hr]. rewrite offeredTransitions_table.
    destruct cur, target; simpl; try congruence; auto.
  - intros tok H. rewrite offeredTransitions_table in H.
    destruct cur; simpl in H;
      repeat (destruct H as [<-|H];
              [first [now exists in_progress | now exists cleaned
                     | now exists rejected]|]);
      contradiction.
  - rewrite offeredTransitions_table.
    destruct cur; repeat constructor; simpl; intuition discriminate.
  - destruct cur; reflexivity.
Qed.

End Workflow.

(** ** The label and colour helpers *)

Section Lookups.

Import MapHelpers.



Lemma switch_default {A : Type} (x : string) (cases : list (string * A))
    (d : A) :
  hitsCase x cases = false -> switch x cases d = d.
Proof.
  induction cases as [|[k v] rest IH]; simpl; [reflexivity|].
  destruct (x =? k); simpl; [discriminate | exact IH].
Qed.

Lemma switch_hit {A : Type} (x : string) (cases : list (string * A))
    (d : A) :
  hitsCase x cases = true -> exists v, In (x, v) cases /\ switch x cases d = v.
Proof.
  induction cases as [|[k v] rest IH]; simpl; [discriminate|].
  destruct (x =? k) eqn:E; simpl.
  - intros _. apply String.eqb_eq in E as ->. exists v. auto.
  - intros H. destruct (IH H) as (v' & Hin & Hv). exists v'. auto.
Qed.




End Lookups.

(** ** The text filters of the Users and Logs views *)

Section Filters.

Variable toLowerCase : string -> string.

Lemma matchesUser_spec (q : string) (u : ProjectUsers.Row) :
  UsersView.matchesUser toLowerCase q u = true
  <-> CaseInsensitiveSubstring toLowerCase q (ProjectUsers.full_name u)
      \/ CaseInsensitiveSubstring toLowerCase q (ProjectUsers.email u)
      \/ exists p,
           ProjectUsers.phone u = Some p
           /\ CaseInsensitiveSubstring toLowerCase q p.
Proof.
  unfold UsersView.matchesUser, CaseInsensitiveSubstring.
  rewrite !orb_true_iff, !JsStringFacts.includes_Substring.
  destruct (ProjectUsers.phone u) as [p|]; simpl.
  - rewrite JsStringFacts.includes_Substring. split.
    + intros [[H|H]|H]; auto. right; right. now exists p.
    + intros [H|[H|(p' & [= <-] & H)]]; auto.
  - split.
    + intros [[H|H]|H]; auto. discriminate.
    + intros [H|[H|(p' & [=] & _)]]; auto.
Qed.

Lemma matchesLog_spec (q : string) (l : SystemLogs.Row) :
  LogsView.matchesLog toLowerCase q l = true
  <-> CaseInsensitiveSubstring toLowerCase q (SystemLogs.action l)
      \/ exists t,
           SystemLogs.entity_type l = Some t
           /\ CaseInsensitiveSubstring toLowerCase q t.
Proof.
  unfold LogsView.matchesLog, CaseInsensitiveSubstring.
  rewrite !orb_true_iff, !JsStringFacts.includes_Substring.
  destruct (SystemLogs.entity_type l) as [t|]; simpl.
  - rewrite JsStringFacts.includes_Substring. split.
    + intros [H|H]; auto. right. now exists t.
    + intros [H|(t' & [= <-] & H)]; auto.
  - split.
    + intros [H|H]; auto. discriminate.
    + intros [H|(t' & [=] & _)]; auto.
Qed.

(** C4: a row is displayed exactly when it is one of the rows held in memory
    and the case-insensitive substring predicate holds on one of its
    designated fields: name, email or (when present) phone for a user; action
    label or (when present) entity type for a log entry. *)
Theorem filtered_rows_are_the_matching_rows :
  (forall (s : UsersView.State) (u : ProjectUsers.Row),
      In u (UsersView.filteredUsers toLowerCase s)
      <-> In u (UsersView.users s)
          /\ (CaseInsensitiveSubstring toLowerCase (UsersView.searchQuery s)
                (ProjectUsers.full_name u)
              \/ CaseInsensitiveSubstring toLowerCase (UsersView.searchQuery s)
                   (ProjectUsers.email u)
              \/ exists p,
                   ProjectUsers.phone u = Some p
                   /\ CaseInsensitiveSubstring toLowerCase
                        (UsersView.searchQuery s) p))
  /\ (forall (s : LogsView.State) (l : SystemLogs.Row),
         In l (LogsView.filteredLogs toLowerCase s)
         <-> In l (LogsView.logs s)
             /\ (CaseInsensitiveSubstring toLowerCase (LogsView.searchQuery s)
                   (SystemLogs.action l)
                 \/ exists t,
                      SystemLogs.entity_type l = Some t
                      /\ CaseInsensitiveSubstring toLowerCase
                           (LogsView.searchQuery s) t)).
Proof.
  split.
  - intros s u. unfold UsersView.filteredUsers.
    now rewrite filter_In, matchesUser_spec.
  - intros s l. unfold LogsView.filteredLogs.
    now rewrite filter_In, matchesLog_spec.
Qed.

Lemma filter_all {A : Type} (f : A -> bool) (l : list A) :
  (forall a, In a l -> f a = true) -> filter f l = l.
Proof.
  induction l as [|a l IH]; simpl; intros H; [reflexivity|].
  rewrite (H a (or_introl eq_refl)), IH; auto.
Qed.

(** C10: with an empty search text every fetched row is displayed, whatever
    its optional field holds: the name of a user and the action of a log entry
    always contain the empty text. On a row whose optional field is null the
    predicate is decided by the other fields alone. The lowering is only
    asked to send the empty string to itself. *)
Theorem empty_query_displays_every_row
    (Hempty : toLowerCase "" = "") :
  (forall s : UsersView.State,
      UsersView.searchQuery s = "" ->
      UsersView.filteredUsers toLowerCase s = UsersView.users s)
  /\ (forall s : LogsView.State,
         LogsView.searchQuery s = "" ->
         LogsView.filteredLogs toLowerCase s = LogsView.logs s)
  /\ (forall (q : string) (u : ProjectUsers.Row),
         ProjectUsers.phone u = None ->
         UsersView.matchesUser toLowerCase q u
         = (JsString.includes (toLowerCase (ProjectUsers.full_name u))
              (toLowerCase q)
            || JsString.includes (toLowerCase (ProjectUsers.email u))
                 (toLowerCase q)))
  /\ (forall (q : string) (l : SystemLogs.Row),
         SystemLogs.entity_type l = None ->
         LogsView.matchesLog toLowerCase q l
         = JsString.includes (toLowerCase (SystemLogs.action l))
             (toLowerCase q)).
Proof.
  repeat split.
  - intros s Hq. unfold UsersView.filteredUsers. apply filter_all.
    intros u _. unfold UsersView.matchesUser.
    now rewrite Hq, Hempty, JsStringFacts.includes_empty.
  - intros s Hq. unfold LogsView.filteredLogs. apply filter_all.
    intros l _. unfold LogsView.matchesLog.
    now rewrite Hq, Hempty, JsStringFacts.includes_empty.
  - intros q u Hp. unfold UsersView.matchesUser. rewrite Hp. simpl.
    now rewrite orb_false_r.
  - intros q l Hp. unfold LogsView.matchesLog. rewrite Hp. simpl.
    now rewrite orb_false_r.
Qed.

End Filters.

Example filter_mar :
  map ProjectUsers.id
    (UsersView.filteredUsers asciiToLowerCase
       (UsersView.mkState sampleUsers false "MAR" None ProjectUsers.noUpdate
          false (ProjectUsers.mkForm "" "" "")))
  = ["u2"].
Proof. reflexivity. Qed.

Lemma empty_query_displays_every_row_witness :
  UsersView.filteredUsers asciiToLowerCase
    (UsersView.mkState sampleUsers false "" None ProjectUsers.noUpdate
       false (ProjectUsers.mkForm "" "" ""))
  = sampleUsers.
Proof.
  apply (proj1 (empty_query_displays_every_row asciiToLowerCase eq_refl)).
  reflexivity.
Defined.

(** ** Running handlers *)

Section Running.

Context {St : Type}.

Lemma bind_ret {A B : Type} (a : A) (k : A -> Eff St B) (s : St) (w : World) :
  bind (ret a) k s w = k a s w.
Proof. reflexivity. Qed.

Lemma bind_setState {B : Type} (f : St -> St) (k : unit -> Eff St B)
    (s : St) (w : World) :
  bind (setState f) k s w = k tt (f s) w.
Proof. reflexivity. Qed.

Lemma bind_getState {A B : Type} (f : St -> A) (k : A -> Eff St B)
    (s : St) (w : World) :
  bind (getState f) k s w = k (f s) s w.
Proof. reflexivity. Qed.

Lemma bind_dateNow {B : Type} (k : Timestamp -> Eff St B) (s : St)
    (w : World) :
  bind dateNow k s w = k (w_clock w (w_tick w)) s (ticked w).
Proof. reflexivity. Qed.

Lemma tryCatch_throw {A : Type} (body : Eff St A) (h : Error -> Eff St A)
    (s s' : St) (w w' : World) (e : Error) :
  body s w = (Throw e, s', w') -> tryCatch body h s w = h e s' w'.
Proof. unfold tryCatch. now intros ->. Qed.

Lemma tryCatch_return {A : Type} (body : Eff St A) (h : Error -> Eff St A)
    (s s' : St) (w w' : World) (a : A) :
  body s w = (Return a, s', w') -> tryCatch body h s w = (Return a, s', w').
Proof. unfold tryCatch. now intros ->. Qed.

(** A [catch] block that only writes to the console ends normally. *)
Lemma tryCatch_consoleError (body : Eff St unit) (label : string) :
  NeverThrows (tryCatch body (fun e => consoleError label e)).
Proof.
  intros s w. unfold tryCatch.
  destruct (body s w) as [[[[]|e] s'] w']; eauto.
  unfold consoleError. eauto.
Qed.

Lemma finally_setState (body : Eff St unit) (f : St -> St) :
  NeverThrows body -> NeverThrows (finally body (setState f)).
Proof.
  intros H s w. unfold finally. destruct (H s w) as (s' & w' & ->).
  simpl. eauto.
Qed.

Lemma bind_NeverThrows {A : Type} (c : Eff St A) (k : A -> Eff St unit) :
  (forall s w, exists a s' w', c s w = (Return a, s', w')) ->
  (forall a, NeverThrows (k a)) -> NeverThrows (bind c k).
Proof.
  intros Hc Hk s w. unfold bind.
  destruct (Hc s w) as (a & s' & w' & ->). apply Hk.
Qed.

(** A request that fails, awaited and checked with [if (error) throw error],
    throws its error; the tables are as before. *)
Lemma checked_request_failure {A B : Type}
    (serve : Uuid -> Timestamp -> Database -> Error + (option A * Database))
    (k : Response A -> Eff St B) (s : St) (w : World) (e : Error) :
  failure (request serve) w = Some e ->
  bind (await (request serve))
    (fun r => bind (throwIf (error_ r)) (fun _ => k r)) s w
  = (Throw e, s, answered (w_db w) w).
Proof.
  unfold failure, bind, await, request.
  destruct (nextFault w); simpl.
  - destruct (serve _ _ _) as [e'|[a db']]; simpl; [|discriminate].
    now intros [= ->].
  - now intros [= ->].
  - now intros [= ->].
Qed.

(** A request that does not fail was served, and the handler goes on with
    the tables the server left. *)
Lemma checked_request_success {A B : Type}
    (serve : Uuid -> Timestamp -> Database -> Error + (option A * Database))
    (k : Response A -> Eff St B) (s : St) (w : World) :
  failure (request serve) w = None ->
  exists a db',
    serve (w_uuids w (w_tick w)) (w_clock w (w_tick w)) (w_db w)
    = inr (a, db')
    /\ bind (await (request serve))
         (fun r => bind (throwIf (error_ r)) (fun _ => k r)) s w
       = k (mkResponse a None) s (answered db' w).
Proof.
  unfold failure, bind, await, request.
  destruct (nextFault w); simpl; try discriminate.
  destruct (serve _ _ _) as [e'|[a db']]; simpl; [discriminate|].
  intros _. now exists a, db'.
Qed.

Lemma failure_NoFault {A : Type}
    (serve : Uuid -> Timestamp -> Database -> Error + (option A * Database))
    (w : World) :
  nextFault w = NoFault ->
  failure (request serve) w
  = match serve (w_uuids w (w_tick w)) (w_clock w (w_tick w)) (w_db w) with
    | inl e => Some e
    | inr _ => None
    end.
Proof.
  unfold failure, request. intros ->.
  now destruct (serve _ _ _) as [e|[a db']].
Qed.

End Running.

(** ** Failures of the backend *)

Section Failures.

Lemma fetchUsers_failure (s : UsersView.State) (w : World) (e : Error) :
  failure UsersView.selectUsers w = Some e ->
  UsersView.fetchUsers s w
  = (Return tt,
     UsersView.mkState (UsersView.users s) false (UsersView.searchQuery s)
       (UsersView.editingUser s) (UsersView.editForm s)
       (UsersView.showAddForm s) (UsersView.newUserForm s),
     logged "Error fetching users:" e (answered (w_db w) w)).
Proof.
  intros H. unfold UsersView.fetchUsers, UsersView.setLoading.
  rewrite bind_setState. unfold finally.
  erewrite tryCatch_throw by (apply checked_request_failure; exact H).
  reflexivity.
Qed.

Lemma fetchLocations_failure (s : MapView.State) (w : World) (e : Error) :
  failure (MapView.selectLocations (MapView.statusFilter s)) w = Some e ->
  MapView.fetchLocations s w
  = (Return tt,
     MapView.mkState (MapView.locations s) false (MapView.statusFilter s)
       (MapView.selectedLocation s),
     logged "Error fetching locations:" e (answered (w_db w) w)).
Proof.
  intros H. unfold MapView.fetchLocations, MapView.setLoading.
  rewrite bind_setState. unfold finally.
  erewrite tryCatch_throw
    by (rewrite bind_getState; apply checked_request_failure; exact H).
  reflexivity.
Qed.

Lemma fetchLogs_failure (s : LogsView.State) (w : World) (e : Error) :
  failure (LogsView.selectLogs (LogsView.filterLevel s)) w = Some e ->
  LogsView.fetchLogs s w
  = (Return tt,
     LogsView.mkState (LogsView.logs s) false (LogsView.filterLevel s)
       (LogsView.searchQuery s),
     logged "Error fetching logs:" e (answered (w_db w) w)).
Proof.
  intros H. unfold LogsView.fetchLogs, LogsView.setLoading.
  rewrite bind_setState. unfold finally.
  erewrite tryCatch_throw
    by (rewrite bind_getState; apply checked_request_failure; exact H).
  reflexivity.
Qed.

Lemma handleToggleActive_failure (userId : Uuid) (currentStatus : bool)
    (s : UsersView.State) (w : World) (e : Error) :
  failure
    (UsersView.updateUser
       (UsersView.toggleUpdate currentStatus (w_clock w (w_tick w))) userId)
    (ticked w) = Some e ->
  UsersView.handleToggleActive userId currentStatus s w
  = (Return tt, s,
     logged "Error toggling user status:" e (answered (w_db w) (ticked w))).
Proof.
  intros H. unfold UsersView.handleToggleActive.
  erewrite tryCatch_throw
    by (rewrite bind_dateNow; apply checked_request_failure; exact H).
  reflexivity.
Qed.

Lemma handleSaveEdit_failure (user : ProjectUsers.Row)
    (s : UsersView.State) (w : World) (e : Error) :
  UsersView.editingUser s = Some user ->
  failure
    (UsersView.updateUser
       (UsersView.editUpdate (UsersView.editForm s) (w_clock w (w_tick w)))
       (ProjectUsers.id user))
    (ticked w) = Some e ->
  UsersView.handleSaveEdit s w
  = (Return tt, s,
     logged "Error updating user:" e (answered (w_db w) (ticked w))).
Proof.
  intros Hu H. unfold UsersView.handleSaveEdit.
  rewrite bind_getState, Hu.
  erewrite tryCatch_throw
    by (rewrite bind_getState, bind_dateNow;
        apply checked_request_failure; exact H).
  reflexivity.
Qed.

Lemma handleAddUser_failure (s : UsersView.State) (w : World) (e : Error) :
  failure (UsersView.insertUser (UsersView.newUserForm s)) w = Some e ->
  UsersView.handleAddUser s w
  = (Return tt, s, logged "Error adding user:" e (answered (w_db w) w)).
Proof.
  intros H. unfold UsersView.handleAddUser.
  erewrite tryCatch_throw
    by (rewrite bind_getState; apply checked_request_failure; exact H).
  reflexivity.
Qed.

End Failures.

(** ** Status transitions *)

Section Transitions.

Lemma fetchLocations_keeps_tables (s : MapView.State) (w : World) :
  exists s' w',
    MapView.fetchLocations s w = (Return tt, s', w')
    /\ w_db w' = w_db w
    /\ MapView.selectedLocation s' = MapView.selectedLocation s.
Proof.
  unfold MapView.fetchLocations, MapView.setLoading, finally, tryCatch, bind,
    MapView.selectLocations, await, request, getState, setState.
  destruct (nextFault w); [|cbn; eauto 6..].
  destruct (Query.run _ _) as [e|rows]; cbn; eauto 6.
Qed.

(** The [try] block of [handleStatusChange], once the update object is
    built. *)
Lemma handleStatusChange_unfold (locationId : Uuid) (newStatus : string) :
  forall (s : MapView.State) (w : World),
  MapView.handleStatusChange locationId newStatus s w
  = tryCatch
      (fun s0 _ =>
         bind
           (await (MapView.updateLocation (fst (statusUpdates newStatus w))
                     locationId))
           (fun r =>
              bind (throwIf (error_ r))
                (fun _ =>
                   bind MapView.fetchLocations
                     (fun _ => MapView.setSelectedLocation None)))
           s0 (snd (statusUpdates newStatus w)))
      (fun e => consoleError "Error updating status:" e) s w.
Proof.
  intros s w. unfold MapView.handleStatusChange, tryCatch, statusUpdates.
  rewrite bind_dateNow. now destruct (newStatus =? "cleaned").
Qed.

Lemma handleStatusChange_failure (locationId : Uuid) (newStatus : string)
    (s : MapView.State) (w : World) (e : Error) :
  failure
    (MapView.updateLocation (fst (statusUpdates newStatus w)) locationId)
    (snd (statusUpdates newStatus w)) = Some e ->
  MapView.handleStatusChange locationId newStatus s w
  = (Return tt, s,
     logged "Error updating status:" e
       (answered (w_db w) (snd (statusUpdates newStatus w)))).
Proof.
  intros H. rewrite handleStatusChange_unfold.
  erewrite tryCatch_throw by (apply checked_request_failure; exact H).
  unfold statusUpdates. now destruct (newStatus =? "cleaned").
Qed.

Lemma handleStatusChange_success (locationId : Uuid) (newStatus : string)
    (s : MapView.State) (w : World) :
  failure
    (MapView.updateLocation (fst (statusUpdates newStatus w)) locationId)
    (snd (statusUpdates newStatus w)) = None ->
  exists db' s' w',
    Backend.update (TrashLocations.applyUpdate (fst (statusUpdates newStatus w)))
      (MapView.writesKey (fst (statusUpdates newStatus w)))
      Backend.uniqueLocations [("id", locationId)] (w_db w)
    = inr db'
    /\ MapView.handleStatusChange locationId newStatus s w
       = (Return tt, s', w')
    /\ w_db w' = db'
    /\ MapView.selectedLocation s' = None.
Proof.
  intros H. rewrite handleStatusChange_unfold.
  unfold MapView.updateLocation, writeRequest in *.
  destruct (checked_request_success _
              (fun _ => bind MapView.fetchLocations
                          (fun _ => MapView.setSelectedLocation None))
              s _ H) as (a & db1 & Hserve & Hrun).
  assert (Hdb : w_db (snd (statusUpdates newStatus w)) = w_db w)
    by (unfold statusUpdates; now destruct (newStatus =? "cleaned")).
  rewrite Hdb in Hserve.
  destruct (Backend.update _ _ _ _ _) as [e'|db'] eqn:Hupd; [discriminate|].
  injection Hserve as <- <-.
  destruct (fetchLocations_keeps_tables s
              (answered db' (snd (statusUpdates newStatus w))))
    as (s2 & w2 & Hfetch & Hdb2 & _).
  exists db',
    (MapView.mkState (MapView.locations s2) (MapView.loading s2)
       (MapView.statusFilter s2) None), w2.
  split; [reflexivity|]. split; [|split; [exact Hdb2 | reflexivity]].
  erewrite tryCatch_return; [reflexivity|].
  rewrite Hrun. unfold bind at 1. now rewrite Hfetch.
Qed.

End Transitions.

(** ** Writes on the server *)

Section ServerWrites.

Context {R : Type} `{Table R}.

Lemma updateWhere_Forall2 (m : R -> bool) (apply : R -> option R)
    (rows rows' : list R) :
  Backend.updateWhere m apply rows = Some rows' ->
  Forall2 (fun r r' => if m r then apply r = Some r' else r' = r) rows rows'.
Proof.
  revert rows'. induction rows as [|r rows IH]; simpl; intros rows' Hu.
  - injection Hu as <-. constructor.
  - destruct (Backend.updateWhere m apply rows) as [rest|]; [|discriminate].
    destruct (m r) eqn:Hm.
    + destruct (apply r) as [r1|] eqn:Ha; [|discriminate].
      injection Hu as <-. constructor; [now rewrite Hm | now apply IH].
    + injection Hu as <-. constructor; [now rewrite Hm | now apply IH].
Qed.

Lemma updateWhere_total (m : R -> bool) (apply : R -> option R) (f : R -> R)
    (rows : list R) :
  (forall r, apply r = Some (f r)) ->
  Backend.updateWhere m apply rows
  = Some (map (fun r => if m r then f r else r) rows).
Proof.
  intros Hf. induction rows as [|r rows IH]; simpl; [reflexivity|].
  rewrite IH, Hf. now destruct (m r).
Qed.

End ServerWrites.

Section TransitionFacts.

Lemma statusUpdates_world (newStatus : string) (w : World) :
  w_db (snd (statusUpdates newStatus w)) = w_db w
  /\ nextFault (snd (statusUpdates newStatus w)) = nextFault w
  /\ w_console (snd (statusUpdates newStatus w)) = w_console w.
Proof. unfold statusUpdates. now destruct (newStatus =? "cleaned"). Qed.

(** What writing the update object of a transition does to one row. *)
Lemma applyUpdate_statusUpdates (newStatus : string) (w : World)
    (r r' : TrashLocations.Row) :
  TrashLocations.applyUpdate (fst (statusUpdates newStatus w)) r = Some r' ->
  TransitionFrame newStatus r r'
  /\ (TrashLocations.cleaned_at r <> None -> TrashLocations.cleaned_at r' <> None).
Proof.
  unfold statusUpdates, TrashLocations.applyUpdate, TransitionFrame.
  destruct (newStatus =? "cleaned") eqn:Hc; simpl;
    destruct (parseStatus newStatus); intros [= <-]; simpl;
    repeat split; try discriminate.
  - intros Hn. apply String.eqb_eq in Hc. contradiction.
  - auto.
Qed.

Lemma applyUpdate_transitioned (target : Status) (w : World) (r : TrashLocations.Row) :
  TrashLocations.applyUpdate (fst (statusUpdates (statusToken target) w)) r
  = Some (transitioned target w r).
Proof. destruct target; reflexivity. Qed.

Lemma writesKey_statusUpdates (newStatus : string) (w : World) :
  MapView.writesKey (fst (statusUpdates newStatus w)) = false.
Proof. unfold statusUpdates. now destruct (newStatus =? "cleaned"). Qed.

(** The server's answer to the update of a transition, row by row. *)
Lemma update_statusUpdates_rows (newStatus : string) (w : World)
    (locationId : Uuid) (db db' : Database) :
  Backend.update (TrashLocations.applyUpdate (fst (statusUpdates newStatus w)))
    (MapView.writesKey (fst (statusUpdates newStatus w)))
    Backend.uniqueLocations [("id", locationId)] db = inr db' ->
  Forall2
    (fun r r' =>
       if TrashLocations.id r =? locationId
       then TrashLocations.applyUpdate (fst (statusUpdates newStatus w)) r = Some r'
       else r' = r)
    (trash_locations db) (trash_locations db')
  /\ project_users db' = project_users db
  /\ system_logs db' = system_logs db.
Proof.
  unfold Backend.update. rewrite writesKey_statusUpdates. cbn.
  destruct (Backend.updateWhere _ _ _) as [rows'|] eqn:Hu; [|discriminate].
  intros [= <-]. cbn. repeat split.
  apply updateWhere_Forall2 in Hu.
  eapply Forall2_impl; [|exact Hu]. cbn. intros r r'.
  now rewrite andb_true_r.
Qed.

Lemma Forall2_refl {A : Type} (P : A -> A -> Prop) (l : list A) :
  (forall a, P a a) -> Forall2 P l l.
Proof. intros HP. induction l; constructor; auto. Qed.

Lemma TransitionFrame_refl (newStatus : string) (r : TrashLocations.Row) :
  TransitionFrame newStatus r r.
Proof. unfold TransitionFrame. repeat split. Qed.

(** What any run of [handleStatusChange] does to the tables. *)
Lemma handleStatusChange_tables (locationId : Uuid) (newStatus : string)
    (s : MapView.State) (w : World) :
  let w' := snd (MapView.handleStatusChange locationId newStatus s w) in
  Forall2
    (fun r r' =>
       r' = r \/ TrashLocations.applyUpdate (fst (statusUpdates newStatus w)) r = Some r')
    (trash_locations (w_db w)) (trash_locations (w_db w'))
  /\ project_users (w_db w') = project_users (w_db w)
  /\ system_logs (w_db w') = system_logs (w_db w).
Proof.
  cbv zeta.
  destruct (failure
              (MapView.updateLocation (fst (statusUpdates newStatus w))
                 locationId)
              (snd (statusUpdates newStatus w))) as [e|] eqn:Hf.
  - rewrite (handleStatusChange_failure _ _ _ _ _ Hf). cbn.
    repeat split. apply Forall2_refl. auto.
  - destruct (handleStatusChange_success _ _ s _ Hf)
      as (db' & s' & w' & Hupd & -> & <- & _).
    cbn. apply update_statusUpdates_rows in Hupd as (Hrows & Hu & Hl).
    repeat split; auto.
    eapply Forall2_impl; [|exact Hrows]. cbn. intros r r'.
    destruct (TrashLocations.id r =? locationId); auto.
Qed.

(** C2: whatever the record, the target and the fate of the request, a
    status transition leaves [id], [user_id], [latitude], [longitude],
    [description], [trash_type], [priority], [image_url] and [created_at] of
    every row as they were, and [cleaned_at] too unless the target is
    ['cleaned']; the other tables are not written. *)
Theorem status_transition_frame (locationId : Uuid) (newStatus : string)
    (s : MapView.State) (w : World) :
  let w' := snd (MapView.handleStatusChange locationId newStatus s w) in
  Forall2 (TransitionFrame newStatus)
    (trash_locations (w_db w)) (trash_locations (w_db w'))
  /\ project_users (w_db w') = project_users (w_db w)
  /\ system_logs (w_db w') = system_logs (w_db w).
Proof.
  cbv zeta.
  destruct (handleStatusChange_tables locationId newStatus s w)
    as (Hrows & Hu & Hl).
  repeat split; auto.
  eapply Forall2_impl; [|exact Hrows]. cbn. intros r r' [->|Ha].
  - apply TransitionFrame_refl.
  - now apply applyUpdate_statusUpdates in Ha.
Qed.

End TransitionFacts.

Section CleanedAt.

Lemma update_statusUpdates_served (target : Status) (w : World)
    (locationId : Uuid) (db : Database) :
  Backend.update
    (TrashLocations.applyUpdate (fst (statusUpdates (statusToken target) w)))
    (MapView.writesKey (fst (statusUpdates (statusToken target) w)))
    Backend.uniqueLocations [("id", locationId)] db
  = inr (withRows
           (map (fun r => if TrashLocations.id r =? locationId
                          then transitioned target w r else r)
              (trash_locations db))
           db).
Proof.
  unfold Backend.update. rewrite writesKey_statusUpdates. cbn.
  rewrite (updateWhere_total _ _ (transitioned target w))
    by apply applyUpdate_transitioned.
  do 2 f_equal. apply map_ext. intros r. cbn. now rewrite andb_true_r.
Qed.

Lemma handleStatusChange_served (locationId : Uuid) (target : Status)
    (s : MapView.State) (w : World) :
  nextFault w = NoFault ->
  exists s' w',
    MapView.handleStatusChange locationId (statusToken target) s w
    = (Return tt, s', w')
    /\ trash_locations (w_db w')
       = map (fun r => if TrashLocations.id r =? locationId
                       then transitioned target w r else r)
           (trash_locations (w_db w))
    /\ MapView.selectedLocation s' = None.
Proof.
  intros Hserved.
  destruct (statusUpdates_world (statusToken target) w) as (Hdb & Hfault & _).
  assert (Hf : failure
                 (MapView.updateLocation
                    (fst (statusUpdates (statusToken target) w)) locationId)
                 (snd (statusUpdates (statusToken target) w)) = None).
  { unfold MapView.updateLocation, writeRequest.
    rewrite failure_NoFault by congruence.
    now rewrite Hdb, update_statusUpdates_served. }
  destruct (handleStatusChange_success _ _ s _ Hf)
    as (db' & s' & w' & Hupd & Hrun & <- & Hsel).
  rewrite update_statusUpdates_served in Hupd. injection Hupd as Hupd.
  exists s', w'. repeat split; auto. now rewrite <- Hupd.
Qed.

(** C3: a row created with the column defaults has no [cleaned_at]; a
    transition that the backend serves rewrites the rows of the given
    identity into [transitioned] rows, whose [cleaned_at] is the reading of
    the clock exactly when the target is [cleaned] and is the former value
    otherwise; and no run of the handler, served or failed, to any target,
    turns a [cleaned_at] that is set into NULL. *)
Theorem cleaned_at_stamped_only_by_cleaned :
  (forall (rep : TrashLocations.Report) (fresh : Uuid) (now : Timestamp),
      TrashLocations.cleaned_at (TrashLocations.insertDefaults rep fresh now)
      = None)
  /\ (forall (locationId : Uuid) (target : Status) (s : MapView.State)
             (w : World),
         nextFault w = NoFault ->
         exists s' w',
           MapView.handleStatusChange locationId (statusToken target) s w
           = (Return tt, s', w')
           /\ trash_locations (w_db w')
              = map (fun r => if TrashLocations.id r =? locationId
                              then transitioned target w r else r)
                  (trash_locations (w_db w)))
  /\ (forall (target : Status) (w : World) (r : TrashLocations.Row),
         (target = cleaned
          /\ TrashLocations.cleaned_at (transitioned target w r)
             = Some (w_clock w (S (w_tick w))))
         \/ (target <> cleaned
             /\ TrashLocations.cleaned_at (transitioned target w r)
                = TrashLocations.cleaned_at r))
  /\ (forall (locationId : Uuid) (newStatus : string) (s : MapView.State)
             (w : World),
         Forall2
           (fun r r' =>
              TrashLocations.cleaned_at r <> None ->
              TrashLocations.cleaned_at r' <> None)
           (trash_locations (w_db w))
           (trash_locations
              (w_db (snd (MapView.handleStatusChange locationId newStatus
                            s w))))).
Proof.
  split; [reflexivity|]. split; [|split].
  - intros locationId target s w Hserved.
    destruct (handleStatusChange_served locationId target s w Hserved)
      as (s' & w' & Hrun & Hrows & _).
    now exists s', w'.
  - intros target w r. destruct target; simpl;
      first [left; split; [reflexivity|reflexivity]
            | right; split; [discriminate|reflexivity]].
  - intros locationId newStatus s w.
    destruct (handleStatusChange_tables locationId newStatus s w)
      as (Hrows & _).
    eapply Forall2_impl; [|exact Hrows]. cbn. intros r r' [->|Ha]; auto.
    now apply applyUpdate_statusUpdates in Ha.
Qed.

End CleanedAt.

(** ** Ordering on the server *)

Section Ordering.

Context {R : Type} `{Table R}.

Lemma insertDesc_Permutation (key : R -> Timestamp) (r : R) (rows : list R) :
  Permutation (Query.insertDesc key r rows) (r :: rows).
Proof.
  induction rows as [|x rows IH]; simpl; [reflexivity|].
  destruct (key x <=? key r)%Z; [reflexivity|].
  rewrite IH. apply perm_swap.
Qed.

Lemma sortDesc_Permutation (key : R -> Timestamp) (rows : list R) :
  Permutation (Query.sortDesc key rows) rows.
Proof.
  induction rows as [|x rows IH]; simpl; [reflexivity|].
  rewrite insertDesc_Permutation. now constructor.
Qed.

Lemma sortDesc_In (key : R -> Timestamp) (rows : list R) (r : R) :
  In r (Query.sortDesc key rows) <-> In r rows.
Proof.
  split; apply Permutation_in;
    [|symmetry]; apply sortDesc_Permutation.
Qed.

Lemma insertDesc_Descending (key : R -> Timestamp) (r : R) (rows : list R) :
  Query.Descending key rows ->
  Query.Descending key (Query.insertDesc key r rows).
Proof.
  induction 1 as [|x rows Hx Hd IH]; simpl.
  - constructor; constructor.
  - destruct (key x <=? key r)%Z eqn:E.
    + apply Z.leb_le in E. constructor; [|now constructor].
      constructor; [exact E|].
      eapply Forall_impl; [|exact Hx]. cbn. intros; lia.
    + apply Z.leb_gt in E. constructor; [|exact IH].
      rewrite Forall_forall. intros y Hy.
      apply (Permutation_in _ (insertDesc_Permutation key r rows)) in Hy.
      destruct Hy as [<-|Hy]; [lia|].
      rewrite Forall_forall in Hx. now apply Hx.
Qed.

Lemma sortDesc_Descending (key : R -> Timestamp) (rows : list R) :
  Query.Descending key (Query.sortDesc key rows).
Proof.
  induction rows as [|x rows IH]; simpl; [constructor|].
  now apply insertDesc_Descending.
Qed.

End Ordering.

(** ** The Logs view's fetch *)

Section LogsFetch.

Lemma In_firstn {A : Type} (n : nat) (l : list A) (a : A) :
  In a (firstn n l) -> In a l.
Proof.
  intros H. rewrite <- (firstn_skipn n l). apply in_or_app. now left.
Qed.

Lemma logsQuery_run (level : OrAll LogLevel) (db : Database) :
  Query.run (LogsView.logsQuery level) db
  = inr (firstn 100
           (Query.sortDesc SystemLogs.created_at
              (filter (levelMatches level) (system_logs db)))).
Proof.
  unfold Query.run, LogsView.logsQuery.
  destruct level as [|lvl]; cbn -[firstn Query.sortDesc].
  - reflexivity.
  - do 3 f_equal. apply filter_ext. intros l. cbn. now rewrite andb_true_r.
Qed.

Lemma fetchLogs_served (s : LogsView.State) (w : World) :
  nextFault w = NoFault ->
  LogsView.fetchLogs s w
  = (Return tt,
     LogsView.mkState
       (firstn 100
          (Query.sortDesc SystemLogs.created_at
             (filter (levelMatches (LogsView.filterLevel s))
                (system_logs (w_db w)))))
       false (LogsView.filterLevel s) (LogsView.searchQuery s),
     answered (w_db w) w).
Proof.
  intros Hserved.
  unfold LogsView.fetchLogs, LogsView.setLoading, finally, tryCatch, bind,
    LogsView.selectLogs, selectRequest, await, request, getState, setState.
  rewrite Hserved, logsQuery_run. reflexivity.
Qed.

Lemma levelMatches_only (lvl : LogLevel) (l : SystemLogs.Row) :
  levelMatches (only lvl) l = true <-> SystemLogs.log_level l = lvl.
Proof.
  unfold levelMatches. rewrite String.eqb_eq.
  split; [|now intros ->].
  destruct (SystemLogs.log_level l), lvl; simpl; intros E;
    try reflexivity; discriminate E.
Qed.

Lemma failure_of_fault {A : Type}
    (serve : Uuid -> Timestamp -> Database -> Error + (option A * Database))
    (w : World) (e : Error) :
  nextFault w = ErrorResult e \/ nextFault w = Rejects e ->
  failure (request serve) w = Some e.
Proof. unfold failure, request. now intros [-> | ->]. Qed.

(** The cap holds after a fetch, served or not, if it held before. *)
Lemma fetchLogs_keeps_cap (s : LogsView.State) (w : World) :
  length (LogsView.logs s) <= 100 ->
  length (LogsView.logs (snd (fst (LogsView.fetchLogs s w)))) <= 100.
Proof.
  intros Hcap. destruct (nextFault w) as [|e|e] eqn:Hf.
  - rewrite fetchLogs_served by exact Hf. apply firstn_le_length.
  - rewrite (fetchLogs_failure s w e); [exact Hcap|].
    apply failure_of_fault. now left.
  - rewrite (fetchLogs_failure s w e); [exact Hcap|].
    apply failure_of_fault. now right.
Qed.

(** C5: whatever the table and the level filter, the query of the Logs view
    raises no error and yields the first hundred, in descending order of
    creation, of the entries whose level passes the filter: at most 100
    entries, all of them entries of the table, all of the chosen level when a
    level is chosen, and none at all when the level is [critical] and the
    table has no critical entry. A fetch that the backend serves puts exactly
    these rows on display, and no fetch, served or failed, takes the view
    above 100 entries. *)
Theorem logs_fetch_is_capped_and_filtered :
  (forall (level : OrAll LogLevel) (db : Database),
      exists rows,
        Query.run (LogsView.logsQuery level) db = inr rows
        /\ rows = firstn 100
                    (Query.sortDesc SystemLogs.created_at
                       (filter (levelMatches level) (system_logs db)))
        /\ length rows <= 100
        /\ (forall l, In l rows -> In l (system_logs db))
        /\ (forall lvl,
               level = only lvl ->
               forall l, In l rows -> SystemLogs.log_level l = lvl)
        /\ (level = only critical ->
            (forall l, In l (system_logs db) ->
                       SystemLogs.log_level l <> critical) ->
            rows = []))
  /\ (forall (s : LogsView.State) (w : World),
         nextFault w = NoFault ->
         exists rows,
           Query.run (LogsView.logsQuery (LogsView.filterLevel s)) (w_db w)
           = inr rows
           /\ LogsView.fetchLogs s w
              = (Return tt,
                 LogsView.mkState rows false (LogsView.filterLevel s)
                   (LogsView.searchQuery s),
                 answered (w_db w) w))
  /\ (forall (s : LogsView.State) (w : World),
         length (LogsView.logs s) <= 100 ->
         length (LogsView.logs (snd (fst (LogsView.fetchLogs s w)))) <= 100).
Proof.
  split; [|split].
  - intros level db. eexists. split; [apply logsQuery_run|].
    assert (Hin : forall l,
               In l (firstn 100
                       (Query.sortDesc SystemLogs.created_at
                          (filter (levelMatches level) (system_logs db)))) ->
               In l (system_logs db) /\ levelMatches level l = true).
    { intros l Hl. apply In_firstn, sortDesc_In in Hl.
      now apply filter_In in Hl. }
    repeat split.
    + apply firstn_le_length.
    + intros l Hl. now apply Hin in Hl.
    + intros lvl Hlvl l Hl. apply Hin in Hl as [_ Hl].
      rewrite Hlvl in Hl. now apply levelMatches_only.
    + intros Hlvl Hnone.
      destruct (firstn 100 _) as [|l rest] eqn:E; [reflexivity|].
      destruct (Hin l) as [Hl Hm]; [now left|].
      rewrite Hlvl in Hm. apply levelMatches_only in Hm.
      now apply Hnone in Hl.
  - intros s w Hserved. eexists. split; [apply logsQuery_run|].
    now apply fetchLogs_served.
  - apply fetchLogs_keeps_cap.
Qed.

End LogsFetch.

(** ** Toggling a user *)

Section Toggle.

Lemma fetchUsers_NeverThrows : NeverThrows UsersView.fetchUsers.
Proof.
  unfold UsersView.fetchUsers. apply bind_NeverThrows.
  - intros s w. unfold UsersView.setLoading, setState. eauto.
  - intros _. apply finally_setState, tryCatch_consoleError.
Qed.

Lemma fetchUsers_served (s : UsersView.State) (w : World) :
  nextFault w = NoFault ->
  UsersView.fetchUsers s w
  = (Return tt,
     UsersView.mkState
       (Query.sortDesc ProjectUsers.created_at (project_users (w_db w)))
       false (UsersView.searchQuery s) (UsersView.editingUser s)
       (UsersView.editForm s) (UsersView.showAddForm s)
       (UsersView.newUserForm s),
     answered (w_db w) w).
Proof.
  intros Hserved.
  unfold UsersView.fetchUsers, UsersView.setLoading, finally, tryCatch, bind,
    UsersView.selectUsers, selectRequest, await, request, setState.
  rewrite Hserved. cbn. now rewrite filter_true.
Qed.

Lemma update_toggle_served (currentStatus : bool) (t : Timestamp)
    (userId : Uuid) (db : Database) :
  Backend.update
    (fun r => Some (ProjectUsers.applyUpdate
                      (UsersView.toggleUpdate currentStatus t) r))
    (UsersView.writesKey (UsersView.toggleUpdate currentStatus t))
    Backend.uniqueUsers [("id", userId)] db
  = inr (withRows
           (map (fun r => if ProjectUsers.id r =? userId
                          then ProjectUsers.applyUpdate
                                 (UsersView.toggleUpdate currentStatus t) r
                          else r)
              (project_users db))
           db).
Proof.
  unfold Backend.update. cbn.
  rewrite (updateWhere_total _ _
             (ProjectUsers.applyUpdate
                (UsersView.toggleUpdate currentStatus t)))
    by reflexivity.
  cbn. do 2 f_equal. apply map_ext. intros r. cbn. now rewrite andb_true_r.
Qed.

Lemma handleToggleActive_served (userId : Uuid) (currentStatus : bool)
    (s : UsersView.State) (w : World) :
  nextFault w = NoFault ->
  UsersView.handleToggleActive userId currentStatus s w
  = UsersView.fetchUsers s
      (answered
         (withRows
            (map (fun r => if ProjectUsers.id r =? userId
                           then ProjectUsers.applyUpdate
                                  (UsersView.toggleUpdate currentStatus
                                     (w_clock w (w_tick w))) r
                           else r)
               (project_users (w_db w)))
            (w_db w))
         (ticked w)).
Proof.
  intros Hserved. unfold UsersView.handleToggleActive.
  match goal with
  | |- _ = UsersView.fetchUsers s ?w1 =>
      destruct (fetchUsers_NeverThrows s w1) as (s' & w' & Hfetch);
      rewrite Hfetch
  end.
  apply tryCatch_return.
  rewrite bind_dateNow. unfold UsersView.updateUser, writeRequest.
  match goal with
  | |- bind (await (request ?serve)) _ _ _ = _ =>
      assert (Hf : failure (request serve) (ticked w) = None)
  end.
  { rewrite failure_NoFault by exact Hserved.
    now rewrite update_toggle_served. }
  destruct (checked_request_success _ (fun _ => UsersView.fetchUsers) s _ Hf)
    as (a & db' & Hserve & ->).
  rewrite update_toggle_served in Hserve. now injection Hserve as <- <-.
Qed.




End Toggle.

(** ** Failures never leave the view *)

Section Swallowing.

Lemma setState_returns {St : Type} (f : St -> St) (s : St) (w : World) :
  exists (a : unit) s' w', setState f s w = (Return a, s', w').
Proof. unfold setState. eauto. Qed.

Lemma fetchLocations_NeverThrows : NeverThrows MapView.fetchLocations.
Proof.
  unfold MapView.fetchLocations. apply bind_NeverThrows.
  - apply setState_returns.
  - intros _. apply finally_setState, tryCatch_consoleError.
Qed.

Lemma fetchLogs_NeverThrows : NeverThrows LogsView.fetchLogs.
Proof.
  unfold LogsView.fetchLogs. apply bind_NeverThrows.
  - apply setState_returns.
  - intros _. apply finally_setState, tryCatch_consoleError.
Qed.

Lemma handleSaveEdit_NeverThrows : NeverThrows UsersView.handleSaveEdit.
Proof.
  unfold UsersView.handleSaveEdit. apply bind_NeverThrows.
  - intros s w. unfold getState. eauto.
  - intros [user|]; [apply tryCatch_consoleError|].
    intros s w. unfold ret. eauto.
Qed.

Lemma handleEditClick_NeverThrows (user : ProjectUsers.Row) :
  NeverThrows (UsersView.handleEditClick user).
Proof.
  unfold UsersView.handleEditClick. apply bind_NeverThrows.
  - apply setState_returns.
  - intros _ s w. unfold UsersView.setEditForm, setState. eauto.
Qed.

Lemma logged_Swallowed (label : string) (e : Error) (w w1 : World) :
  w_console w1 = w_console w -> w_db w1 = w_db w ->
  Swallowed label e w (logged label e w1).
Proof. unfold Swallowed. cbn. now intros -> ->. Qed.

(** C6: when the request of a handler fails, for a rejected promise as for a
    response that carries an error, the handler ends normally, the error is
    on the console and the tables are as before; after a failed fetch the
    view holds the rows, filter, selection and forms it held, and after a
    failed mutation the whole state of the view is what it was, so an open
    form stays open with what was typed. No handler throws, whatever the
    backend does. *)
Theorem backend_failures_are_swallowed :
  (forall (s : UsersView.State) (w : World) (e : Error),
      failure UsersView.selectUsers w = Some e ->
      exists w',
        UsersView.fetchUsers s w
        = (Return tt,
           UsersView.mkState (UsersView.users s) false
             (UsersView.searchQuery s) (UsersView.editingUser s)
             (UsersView.editForm s) (UsersView.showAddForm s)
             (UsersView.newUserForm s), w')
        /\ Swallowed "Error fetching users:" e w w')
  /\ (forall (s : MapView.State) (w : World) (e : Error),
         failure (MapView.selectLocations (MapView.statusFilter s)) w
         = Some e ->
         exists w',
           MapView.fetchLocations s w
           = (Return tt,
              MapView.mkState (MapView.locations s) false
                (MapView.statusFilter s) (MapView.selectedLocation s), w')
           /\ Swallowed "Error fetching locations:" e w w')
  /\ (forall (s : LogsView.State) (w : World) (e : Error),
         failure (LogsView.selectLogs (LogsView.filterLevel s)) w = Some e ->
         exists w',
           LogsView.fetchLogs s w
           = (Return tt,
              LogsView.mkState (LogsView.logs s) false
                (LogsView.filterLevel s) (LogsView.searchQuery s), w')
           /\ Swallowed "Error fetching logs:" e w w')
  /\ (forall (userId : Uuid) (currentStatus : bool) (s : UsersView.State)
             (w : World) (e : Error),
         failure
           (UsersView.updateUser
              (UsersView.toggleUpdate currentStatus (w_clock w (w_tick w)))
              userId)
           (ticked w) = Some e ->
         exists w',
           UsersView.handleToggleActive userId currentStatus s w
           = (Return tt, s, w')
           /\ Swallowed "Error toggling user status:" e w w')
  /\ (forall (user : ProjectUsers.Row) (s : UsersView.State) (w : World)
             (e : Error),
         UsersView.editingUser s = Some user ->
         failure
           (UsersView.updateUser
              (UsersView.editUpdate (UsersView.editForm s)
                 (w_clock w (w_tick w)))
              (ProjectUsers.id user))
           (ticked w) = Some e ->
         exists w',
           UsersView.handleSaveEdit s w = (Return tt, s, w')
           /\ Swallowed "Error updating user:" e w w')
  /\ (forall (s : UsersView.State) (w : World) (e : Error),
         failure (UsersView.insertUser (UsersView.newUserForm s)) w = Some e ->
         exists w',
           UsersView.handleAddUser s w = (Return tt, s, w')
           /\ Swallowed "Error adding user:" e w w')
  /\ (forall (locationId : Uuid) (newStatus : string) (s : MapView.State)
             (w : World) (e : Error),
         failure
           (MapView.updateLocation (fst (statusUpdates newStatus w))
              locationId)
           (snd (statusUpdates newStatus w)) = Some e ->
         exists w',
           MapView.handleStatusChange locationId newStatus s w
           = (Return tt, s, w')
           /\ Swallowed "Error updating status:" e w w')
  /\ (NeverThrows UsersView.fetchUsers
      /\ NeverThrows MapView.fetchLocations
      /\ NeverThrows LogsView.fetchLogs
      /\ (forall userId currentStatus,
             NeverThrows (UsersView.handleToggleActive userId currentStatus))
      /\ NeverThrows UsersView.handleSaveEdit
      /\ NeverThrows UsersView.handleAddUser
      /\ (forall locationId newStatus,
             NeverThrows (MapView.handleStatusChange locationId newStatus))).
Proof.
  repeat match goal with |- _ /\ _ => split end.
  - intros s w e H. eexists. split; [exact (fetchUsers_failure s w e H)|].
    now apply logged_Swallowed.
  - intros s w e H. eexists. split; [exact (fetchLocations_failure s w e H)|].
    now apply logged_Swallowed.
  - intros s w e H. eexists. split; [exact (fetchLogs_failure s w e H)|].
    now apply logged_Swallowed.
  - intros userId currentStatus s w e H. eexists.
    split; [exact (handleToggleActive_failure _ _ s w e H)|].
    now apply logged_Swallowed.
  - intros user s w e Hu H. eexists.
    split; [exact (handleSaveEdit_failure user s w e Hu H)|].
    now apply logged_Swallowed.
  - intros s w e H. eexists. split; [exact (handleAddUser_failure s w e H)|].
    now apply logged_Swallowed.
  - intros locationId newStatus s w e H. eexists.
    split; [exact (handleStatusChange_failure _ _ s w e H)|].
    apply logged_Swallowed; cbn; [apply statusUpdates_world | reflexivity].
  - apply fetchUsers_NeverThrows.
  - apply fetchLocations_NeverThrows.
  - apply fetchLogs_NeverThrows.
  - intros. apply tryCatch_consoleError.
  - apply handleSaveEdit_NeverThrows.
  - apply tryCatch_consoleError.
  - intros. apply tryCatch_consoleError.
Qed.

(** C7, as stated, fails: a re-fetch that fails after the users were loaded
    leaves the three users on display, not an empty list. *)
Lemma failed_refetch_keeps_the_loaded_users :
  failure UsersView.selectUsers (sampleWorld [Rejects networkDown])
  = Some networkDown
  /\ UsersView.users
       (snd (fst (UsersView.fetchUsers
                    (loadedUsersView (ProjectUsers.mkForm "" "" ""))
                    (sampleWorld [Rejects networkDown]))))
     = sampleUsers
  /\ sampleUsers <> [].
Proof. repeat split. discriminate. Qed.

(** C7, amended: after a fetch that fails, an entity list view has left its
    loading state and displays the rows it held before the fetch; they are
    the empty list only when nothing had been fetched yet, as in the initial
    state of the view. *)
Theorem fetch_failure_keeps_rows_and_ends_loading :
  (forall (s : UsersView.State) (w : World) (e : Error),
      failure UsersView.selectUsers w = Some e ->
      exists s' w',
        UsersView.fetchUsers s w = (Return tt, s', w')
        /\ UsersView.users s' = UsersView.users s
        /\ UsersView.loading s' = false)
  /\ (forall (s : MapView.State) (w : World) (e : Error),
         failure (MapView.selectLocations (MapView.statusFilter s)) w
         = Some e ->
         exists s' w',
           MapView.fetchLocations s w = (Return tt, s', w')
           /\ MapView.locations s' = MapView.locations s
           /\ MapView.loading s' = false)
  /\ (forall (s : LogsView.State) (w : World) (e : Error),
         failure (LogsView.selectLogs (LogsView.filterLevel s)) w = Some e ->
         exists s' w',
           LogsView.fetchLogs s w = (Return tt, s', w')
           /\ LogsView.logs s' = LogsView.logs s
           /\ LogsView.loading s' = false)
  /\ (UsersView.users UsersView.initial = []
      /\ MapView.locations MapView.initial = []
      /\ LogsView.logs LogsView.initial = []).
Proof.
  repeat match goal with |- _ /\ _ => split end; try reflexivity.
  - intros s w e H. eexists _, _.
    split; [exact (fetchUsers_failure s w e H)|]. now split.
  - intros s w e H. eexists _, _.
    split; [exact (fetchLocations_failure s w e H)|]. now split.
  - intros s w e H. eexists _, _.
    split; [exact (fetchLogs_failure s w e H)|]. now split.
Qed.

End Swallowing.

(** ** Runs on the sample tables *)

Example offered_on_cleaned :
  MapHelpers.offeredTransitions cleaned = ["in_progress"; "rejected"].
Proof. reflexivity. Qed.

Example label_of_inherited_name :
  MapHelpers.getStatusLabel "constructor" = JsInherited "constructor".
Proof. reflexivity. Qed.

Example critical_filter_on_sample_logs :
  Query.run (LogsView.logsQuery (only critical)) sampleDatabase
  = inr (@nil SystemLogs.Row).
Proof. reflexivity. Qed.

Example newest_log_first :
  match Query.run (LogsView.logsQuery all) sampleDatabase with
  | inr rows => map SystemLogs.id rows = ["g3"; "g2"; "g1"]
  | inl _ => False
  end.
Proof. reflexivity. Qed.

Example rejecting_a_cleaned_report_keeps_cleaned_at :
  map (fun r => (statusToken (TrashLocations.status r),
                 TrashLocations.cleaned_at r))
    (trash_locations
       (w_db (snd (MapView.handleStatusChange "l2" "rejected" MapView.initial
                     (sampleWorld [])))))
  = [("reported", None); ("rejected", Some 2500%Z); ("in_progress", None)].
Proof. reflexivity. Qed.

Example unknown_status_is_refused :
  snd (MapView.handleStatusChange "l1" "archived" MapView.initial
         (sampleWorld []))
  = logged "Error updating status:"
      (mkError "new row violates check constraint")
      (answered sampleDatabase (ticked (sampleWorld []))).
Proof. reflexivity. Qed.

Lemma cleaned_at_stamped_only_by_cleaned_witness :
  exists s' w',
    MapView.handleStatusChange "l1" (statusToken cleaned) MapView.initial
      (sampleWorld [])
    = (Return tt, s', w')
    /\ map TrashLocations.cleaned_at (trash_locations (w_db w'))
       = [Some 5001%Z; Some 2500%Z; None].
Proof.
  destruct (proj1 (proj2 cleaned_at_stamped_only_by_cleaned)
              "l1" cleaned MapView.initial (sampleWorld []) eq_refl)
    as (s' & w' & Hrun & Hrows).
  exists s', w'. split; [exact Hrun|]. rewrite Hrows. reflexivity.
Defined.

Lemma logs_fetch_is_capped_and_filtered_witness :
  exists rows,
    LogsView.fetchLogs (LogsView.mkState [] true (only warning) "")
      (sampleWorld [])
    = (Return tt, LogsView.mkState rows false (only warning) "",
       answered sampleDatabase (sampleWorld []))
    /\ map SystemLogs.id rows = ["g2"].
Proof.
  destruct (proj1 (proj2 logs_fetch_is_capped_and_filtered)
              (LogsView.mkState [] true (only warning) "") (sampleWorld [])
              eq_refl)
    as (rows & Hrows & Hrun).
  exists rows. split; [exact Hrun|].
  cbv in Hrows. now injection Hrows as <-.
Defined.

(** An email that is already taken: the insert is refused by the UNIQUE
    constraint, and the add form stays as the operator filled it. *)
Lemma backend_failures_are_swallowed_witness :
  exists w',
    UsersView.handleAddUser
      (loadedUsersView (ProjectUsers.mkForm "user1@example.com" "Ivan" ""))
      (sampleWorld [])
    = (Return tt,
       loadedUsersView (ProjectUsers.mkForm "user1@example.com" "Ivan" ""),
       w')
    /\ w_db w' = sampleDatabase.
Proof.
  destruct (proj1 (proj2 (proj2 (proj2 (proj2 (proj2
              backend_failures_are_swallowed)))))
              (loadedUsersView
                 (ProjectUsers.mkForm "user1@example.com" "Ivan" ""))
              (sampleWorld [])
              (mkError "duplicate key value violates unique constraint")
              eq_refl)
    as (w' & Hrun & _ & Hdb).
  exists w'. split; [exact Hrun | exact Hdb].
Defined.

Lemma fetch_failure_keeps_rows_and_ends_loading_witness :
  exists s' w',
    UsersView.fetchUsers (loadedUsersView (ProjectUsers.mkForm "" "" ""))
      (sampleWorld [ErrorResult networkDown])
    = (Return tt, s', w')
    /\ UsersView.users s' = sampleUsers
    /\ UsersView.loading s' = false.
Proof.
  exact (proj1 fetch_failure_keeps_rows_and_ends_loading
           (loadedUsersView (ProjectUsers.mkForm "" "" ""))
           (sampleWorld [ErrorResult networkDown]) networkDown eq_refl).
Defined.




(** * Further properties *)

(** ** Narrowing a search *)

Section Narrowing.

Import JsString.

Lemma Substring_refl (s : string) : Substring s s.
Proof. exists "", "". simpl. induction s; simpl; congruence. Qed.

Lemma append_assoc (a b c : string) :
  ((a ++ b) ++ c = a ++ (b ++ c))%string.
Proof. induction a; simpl; congruence. Qed.

Lemma Substring_trans (a b c : string) :
  Substring a b -> Substring b c -> Substring a c.
Proof.
  intros (p1 & q1 & ->) (p2 & q2 & ->).
  exists (p2 ++ p1)%string, (q1 ++ q2)%string.
  now rewrite !append_assoc.
Qed.

Lemma filter_length_mono {A : Type} (f g : A -> bool) (l : list A) :
  (forall a, f a = true -> g a = true) ->
  length (filter f l) <= length (filter g l).
Proof.
  intros Hfg. induction l as [|a l IH]; simpl; [lia|].
  destruct (f a) eqn:Ef.
  - rewrite (Hfg a Ef). simpl. lia.
  - destruct (g a); simpl; lia.
Qed.

Lemma filter_incl_mono {A : Type} (f g : A -> bool) (l : list A) :
  (forall a, f a = true -> g a = true) ->
  incl (filter f l) (filter g l).
Proof.
  intros Hfg a Ha. apply filter_In in Ha as [Hin Hf].
  apply filter_In. auto.
Qed.

Variable toLowerCase : string -> string.

Lemma matchesUser_narrows (q1 q2 : string) (u : ProjectUsers.Row) :
  Substring (toLowerCase q1) (toLowerCase q2) ->
  UsersView.matchesUser toLowerCase q2 u = true ->
  UsersView.matchesUser toLowerCase q1 u = true.
Proof.
  intros Hq. rewrite !matchesUser_spec. unfold CaseInsensitiveSubstring.
  intros [H|[H|(p & Hp & H)]].
  - left. eapply Substring_trans; eauto.
  - right; left. eapply Substring_trans; eauto.
  - right; right. exists p. split; [exact Hp|].
    eapply Substring_trans; eauto.
Qed.

Lemma matchesLog_narrows (q1 q2 : string) (l : SystemLogs.Row) :
  Substring (toLowerCase q1) (toLowerCase q2) ->
  LogsView.matchesLog toLowerCase q2 l = true ->
  LogsView.matchesLog toLowerCase q1 l = true.
Proof.
  intros Hq. rewrite !matchesLog_spec. unfold CaseInsensitiveSubstring.
  intros [H|(t & Ht & H)].
  - left. eapply Substring_trans; eauto.
  - right. exists t. split; [exact Ht|].
    eapply Substring_trans; eauto.
Qed.

(** X1: a search text that contains another one, once both are lowered,
    displays no row that the contained text does not display; the same
    rows are held in memory in both cases. *)
Theorem longer_query_displays_fewer_rows :
  (forall s1 s2 : UsersView.State,
      UsersView.users s1 = UsersView.users s2 ->
      Substring (toLowerCase (UsersView.searchQuery s1))
        (toLowerCase (UsersView.searchQuery s2)) ->
      incl (UsersView.filteredUsers toLowerCase s2)
        (UsersView.filteredUsers toLowerCase s1)
      /\ length (UsersView.filteredUsers toLowerCase s2)
         <= length (UsersView.filteredUsers toLowerCase s1))
  /\ (forall s1 s2 : LogsView.State,
         LogsView.logs s1 = LogsView.logs s2 ->
         Substring (toLowerCase (LogsView.searchQuery s1))
           (toLowerCase (LogsView.searchQuery s2)) ->
         incl (LogsView.filteredLogs toLowerCase s2)
           (LogsView.filteredLogs toLowerCase s1)
         /\ length (LogsView.filteredLogs toLowerCase s2)
            <= length (LogsView.filteredLogs toLowerCase s1)).
Proof.
  split.
  - intros s1 s2 Hrows Hq. unfold UsersView.filteredUsers. rewrite Hrows.
    split; [apply filter_incl_mono | apply filter_length_mono];
      intros u; now apply matchesUser_narrows.
  - intros s1 s2 Hrows Hq. unfold LogsView.filteredLogs. rewrite Hrows.
    split; [apply filter_incl_mono | apply filter_length_mono];
      intros l; now apply matchesLog_narrows.
Qed.

End Narrowing.

Lemma longer_query_displays_fewer_rows_witness :
  incl
    (UsersView.filteredUsers asciiToLowerCase
       (UsersView.mkState sampleUsers false "Mar" None ProjectUsers.noUpdate
          false (ProjectUsers.mkForm "" "" "")))
    (UsersView.filteredUsers asciiToLowerCase
       (UsersView.mkState sampleUsers false "A" None ProjectUsers.noUpdate
          false (ProjectUsers.mkForm "" "" ""))).
Proof.
  apply (proj1 (longer_query_displays_fewer_rows asciiToLowerCase)).
  - reflexivity.
  - now exists "m", "r".
Defined.


(** ** What the handlers do to the world *)

Section Worlds.

Lemma bind_return {St A B : Type} (c : Eff St A) (k : A -> Eff St B)
    (s s' : St) (w w' : World) (a : A) :
  c s w = (Return a, s', w') -> bind c k s w = k a s' w'.
Proof. unfold bind. now intros ->. Qed.

(** A fetch of the Users view consumes one request and writes nothing. *)
Lemma fetchUsers_world (s : UsersView.State) (w : World) :
  exists s' w',
    UsersView.fetchUsers s w = (Return tt, s', w')
    /\ w_db w' = w_db w
    /\ w_faults w' = tl (w_faults w)
    /\ w_clock w' = w_clock w
    /\ w_tick w' = S (w_tick w)
    /\ UsersView.editingUser s' = UsersView.editingUser s
    /\ UsersView.editForm s' = UsersView.editForm s
    /\ UsersView.showAddForm s' = UsersView.showAddForm s
    /\ UsersView.newUserForm s' = UsersView.newUserForm s
    /\ (nextFault w = NoFault ->
        UsersView.users s'
        = Query.sortDesc ProjectUsers.created_at (project_users (w_db w))).
Proof.
  destruct (nextFault w) as [|e|e] eqn:Hf.
  - rewrite fetchUsers_served by exact Hf. eexists _, _. now repeat split.
  - rewrite (fetchUsers_failure s w e)
      by (apply failure_of_fault; now left).
    eexists _, _. repeat split. discriminate.
  - rewrite (fetchUsers_failure s w e)
      by (apply failure_of_fault; now right).
    eexists _, _. repeat split. discriminate.
Qed.

Lemma handleSaveEdit_success (user : ProjectUsers.Row)
    (s : UsersView.State) (w : World) :
  UsersView.editingUser s = Some user ->
  failure
    (UsersView.updateUser
       (UsersView.editUpdate (UsersView.editForm s) (w_clock w (w_tick w)))
       (ProjectUsers.id user))
    (ticked w) = None ->
  exists db' s1 w1,
    Backend.update
      (fun r => Some (ProjectUsers.applyUpdate
                        (UsersView.editUpdate (UsersView.editForm s)
                           (w_clock w (w_tick w))) r))
      (UsersView.writesKey
         (UsersView.editUpdate (UsersView.editForm s)
            (w_clock w (w_tick w))))
      Backend.uniqueUsers [("id", ProjectUsers.id user)] (w_db w)
    = inr db'
    /\ UsersView.fetchUsers s (answered db' (ticked w)) = (Return tt, s1, w1)
    /\ UsersView.handleSaveEdit s w
       = (Return tt,
          UsersView.mkState (UsersView.users s1) (UsersView.loading s1)
            (UsersView.searchQuery s1) None ProjectUsers.noUpdate
            (UsersView.showAddForm s1) (UsersView.newUserForm s1),
          w1).
Proof.
  intros Hu Hf. unfold UsersView.handleSaveEdit.
  rewrite bind_getState, Hu.
  unfold UsersView.updateUser, writeRequest in *.
  destruct (checked_request_success _
              (fun _ => bind UsersView.fetchUsers
                          (fun _ => bind (UsersView.setEditingUser None)
                                      (fun _ => UsersView.setEditForm
                                                  ProjectUsers.noUpdate)))
              s _ Hf) as (a & db1 & Hserve & Hrun).
  cbn [ticked w_db] in Hserve.
  destruct (Backend.update _ _ _ _ _) as [e'|db'] eqn:Hupd; [discriminate|].
  injection Hserve as <- <-.
  destruct (fetchUsers_world s (answered db' (ticked w)))
    as (s1 & w1 & Hfetch & _).
  exists db', s1, w1. split; [reflexivity|]. split; [exact Hfetch|].
  apply tryCatch_return.
  rewrite bind_getState, bind_dateNow, Hrun.
  now rewrite (bind_return _ _ _ _ _ _ _ Hfetch).
Qed.

Lemma handleAddUser_success (s : UsersView.State) (w : World) :
  failure (UsersView.insertUser (UsersView.newUserForm s)) w = None ->
  exists db' s1 w1,
    Backend.insert
      (ProjectUsers.insertDefaults (UsersView.newUserForm s)
         (w_uuids w (w_tick w)) (w_clock w (w_tick w)))
      Backend.uniqueUsers (w_db w)
    = inr db'
    /\ UsersView.fetchUsers s (answered db' w) = (Return tt, s1, w1)
    /\ UsersView.handleAddUser s w
       = (Return tt,
          UsersView.mkState (UsersView.users s1) (UsersView.loading s1)
            (UsersView.searchQuery s1) (UsersView.editingUser s1)
            (UsersView.editForm s1) false (ProjectUsers.mkForm "" "" ""),
          w1).
Proof.
  intros Hf. unfold UsersView.handleAddUser.
  unfold UsersView.insertUser, writeRequest in *.
  destruct (checked_request_success _
              (fun _ => bind UsersView.fetchUsers
                          (fun _ => bind (UsersView.setShowAddForm false)
                                      (fun _ => UsersView.setNewUserForm
                                                  (ProjectUsers.mkForm
                                                     "" "" ""))))
              s _ Hf) as (a & db1 & Hserve & Hrun).
  destruct (Backend.insert _ _ _) as [e'|db'] eqn:Hins; [discriminate|].
  injection Hserve as <- <-.
  destruct (fetchUsers_world s (answered db' w))
    as (s1 & w1 & Hfetch & _).
  exists db', s1, w1. split; [reflexivity|]. split; [exact Hfetch|].
  apply tryCatch_return.
  rewrite bind_getState, Hrun.
  now rewrite (bind_return _ _ _ _ _ _ _ Hfetch).
Qed.

End Worlds.

(** ** Lists of distinct keys *)

Section UsersWrites.

Lemma existsb_eqb_In (k : string) (ks : list string) :
  existsb (String.eqb k) ks = true <-> In k ks.
Proof.
  rewrite existsb_exists. split.
  - intros (x & Hin & E). apply String.eqb_eq in E. now subst.
  - intros Hin. exists k. split; [exact Hin | apply String.eqb_refl].
Qed.

Lemma distinct_snoc (ks : list string) (k : string) :
  Backend.distinct (ks ++ [k])
  = Backend.distinct ks && negb (existsb (String.eqb k) ks).
Proof.
  induction ks as [|a ks IH]; simpl; [reflexivity|].
  rewrite IH, existsb_app. simpl. rewrite orb_false_r.
  rewrite (String.eqb_sym k a).
  destruct (existsb (String.eqb a) ks), (a =? k), (Backend.distinct ks),
    (existsb (String.eqb k) ks); reflexivity.
Qed.

End UsersWrites.

(** ** Toggling, editing and adding users *)

Section UsersScenarios.

Lemma toggle_applyUpdate (currentStatus : bool) (t : Timestamp)
    (r : ProjectUsers.Row) :
  ProjectUsers.applyUpdate (UsersView.toggleUpdate currentStatus t) r
  = setActive currentStatus t r.
Proof. reflexivity. Qed.

Lemma handleToggleActive_served_run (userId : Uuid) (currentStatus : bool)
    (s : UsersView.State) (w : World) :
  nextFault w = NoFault ->
  exists s' w',
    UsersView.handleToggleActive userId currentStatus s w
    = (Return tt, s', w')
    /\ project_users (w_db w')
       = map (fun r => if ProjectUsers.id r =? userId
                       then setActive currentStatus (w_clock w (w_tick w)) r
                       else r)
           (project_users (w_db w))
    /\ w_faults w' = tl (tl (w_faults w))
    /\ w_clock w' = w_clock w
    /\ w_tick w' = 3 + w_tick w.
Proof.
  intros Hserved. rewrite handleToggleActive_served by exact Hserved.
  match goal with
  | |- context [UsersView.fetchUsers s ?w1] =>
      destruct (fetchUsers_world s w1)
        as (s' & w' & Hrun & Hdb & Hfaults & Hclock & Htick & _)
  end.
  exists s', w'. split; [exact Hrun|].
  rewrite Hdb, Hfaults, Hclock, Htick. now repeat split.
Qed.

(** X2: a served toggle writes the negation of the flag it was called with
    into every row of the given identity, whatever the row held, and stamps
    it; called twice with the same flag, as from a view that was not
    refreshed in between, it does not flip the row back: the second call
    only renews the stamp. *)
Theorem toggle_writes_the_negated_flag :
  (forall (userId : Uuid) (currentStatus : bool) (s : UsersView.State)
          (w : World),
      nextFault w = NoFault ->
      project_users
        (w_db (snd (UsersView.handleToggleActive userId currentStatus s w)))
      = map (fun r => if ProjectUsers.id r =? userId
                      then setActive currentStatus (w_clock w (w_tick w)) r
                      else r)
          (project_users (w_db w)))
  /\ (forall (userId : Uuid) (currentStatus : bool) (s : UsersView.State)
             (w : World),
         w_faults w = [] ->
         project_users
           (w_db (snd ((UsersView.handleToggleActive userId currentStatus ;;
                        UsersView.handleToggleActive userId currentStatus)
                         s w)))
         = map (fun r => if ProjectUsers.id r =? userId
                         then setActive currentStatus
                                (w_clock w (3 + w_tick w)) r
                         else r)
             (project_users (w_db w))).
Proof.
  split.
  - intros userId currentStatus s w Hserved.
    destruct (handleToggleActive_served_run userId currentStatus s w Hserved)
      as (s' & w' & -> & Hrows & _).
    exact Hrows.
  - intros userId currentStatus s w Hfaults.
    assert (Hserved : nextFault w = NoFault)
      by (unfold nextFault; now rewrite Hfaults).
    destruct (handleToggleActive_served_run userId currentStatus s w Hserved)
      as (s1 & w1 & Hrun1 & Hrows1 & Hfaults1 & Hclock1 & Htick1).
    rewrite Hfaults in Hfaults1. cbn in Hfaults1.
    assert (Hserved1 : nextFault w1 = NoFault)
      by (unfold nextFault; now rewrite Hfaults1).
    destruct (handleToggleActive_served_run userId currentStatus s1 w1
                Hserved1)
      as (s2 & w2 & Hrun2 & Hrows2 & _).
    rewrite (bind_return _ _ _ _ _ _ _ Hrun1), Hrun2. cbn [snd].
    rewrite Hrows2, Hrows1, map_map, Hclock1, Htick1.
    apply map_ext. intros r.
    destruct (ProjectUsers.id r =? userId) eqn:E; cbn; now rewrite E.
Qed.

Lemma editAndSave_unfold (user : ProjectUsers.Row) (name mail tel : string)
    (s : UsersView.State) (w : World) :
  editAndSave user name mail tel s w
  = UsersView.handleSaveEdit (editingState user name mail tel s) w.
Proof. reflexivity. Qed.

Lemma edit_update_served (user : ProjectUsers.Row) (name mail tel : string)
    (s : UsersView.State) (t : Timestamp) (db : Database) :
  Backend.update
    (fun r => Some (ProjectUsers.applyUpdate
                      (UsersView.editUpdate
                         (UsersView.editForm
                            (editingState user name mail tel s)) t) r))
    (UsersView.writesKey
       (UsersView.editUpdate
          (UsersView.editForm (editingState user name mail tel s)) t))
    Backend.uniqueUsers [("id", ProjectUsers.id user)] db
  = if Backend.uniqueUsers
         (map (fun r => if ProjectUsers.id r =? ProjectUsers.id user
                        then editedRow user name mail tel t else r)
            (project_users db))
    then inr (withRows
                (map (fun r => if ProjectUsers.id r =? ProjectUsers.id user
                               then editedRow user name mail tel t else r)
                   (project_users db))
                db)
    else inl (mkError "duplicate key value violates unique constraint").
Proof.
  unfold Backend.update. cbn.
  rewrite (updateWhere_total _ _ (fun _ => editedRow user name mail tel t))
    by reflexivity.
  erewrite map_ext
    with (g := fun r => if ProjectUsers.id r =? ProjectUsers.id user
                        then editedRow user name mail tel t else r)
    by (intros r; cbn; now rewrite andb_true_r).
  now destruct (Backend.uniqueUsers _).
Qed.

(** X3: what is saved is the whole form: a served save puts, into every
    row of the edited identity, what was typed together with the values the
    view held when editing began, whatever the row holds by then, and stamps
    it; the editing state is cleared. When the result would break a key
    constraint the save is refused: the tables stay and the row stays open
    with what was typed. With no row open, saving does nothing. *)
Theorem edit_and_save_overwrites_the_row
    (user : ProjectUsers.Row) (name mail tel : string)
    (s : UsersView.State) (w : World)
    (Hserved : nextFault w = NoFault) :
  (Backend.uniqueUsers
     (map (fun r => if ProjectUsers.id r =? ProjectUsers.id user
                    then editedRow user name mail tel (w_clock w (w_tick w))
                    else r)
        (project_users (w_db w))) = true ->
   exists s' w',
     editAndSave user name mail tel s w = (Return tt, s', w')
     /\ project_users (w_db w')
        = map (fun r => if ProjectUsers.id r =? ProjectUsers.id user
                        then editedRow user name mail tel
                               (w_clock w (w_tick w))
                        else r)
            (project_users (w_db w))
     /\ UsersView.editingUser s' = None
     /\ UsersView.editForm s' = ProjectUsers.noUpdate)
  /\ (Backend.uniqueUsers
        (map (fun r => if ProjectUsers.id r =? ProjectUsers.id user
                       then editedRow user name mail tel
                              (w_clock w (w_tick w))
                       else r)
           (project_users (w_db w))) = false ->
      exists w',
        editAndSave user name mail tel s w
        = (Return tt, editingState user name mail tel s, w')
        /\ w_db w' = w_db w)
  /\ (UsersView.editingUser s = None ->
      UsersView.handleSaveEdit s w = (Return tt, s, w)).
Proof.
  assert (Hf : failure
                 (UsersView.updateUser
                    (UsersView.editUpdate
                       (UsersView.editForm
                          (editingState user name mail tel s))
                       (w_clock w (w_tick w)))
                    (ProjectUsers.id user))
                 (ticked w)
               = if Backend.uniqueUsers
                      (map (fun r =>
                              if ProjectUsers.id r =? ProjectUsers.id user
                              then editedRow user name mail tel
                                     (w_clock w (w_tick w))
                              else r)
                         (project_users (w_db w)))
                 then None
                 else Some (mkError
                       "duplicate key value violates unique constraint")).
  { unfold UsersView.updateUser, writeRequest.
    rewrite failure_NoFault by exact Hserved.
    cbn [ticked w_db w_clock w_tick]. rewrite edit_update_served.
    now destruct (Backend.uniqueUsers _). }
  rewrite editAndSave_unfold.
  split; [|split].
  - intros Hu. rewrite Hu in Hf.
    destruct (handleSaveEdit_success user
                (editingState user name mail tel s) w eq_refl Hf)
      as (db' & s1 & w1 & Hupd & Hfetch & ->).
    rewrite edit_update_served, Hu in Hupd. injection Hupd as <-.
    match type of Hfetch with
    | UsersView.fetchUsers ?st ?wd = _ =>
        destruct (fetchUsers_world st wd) as (s2 & w2 & Hfetch2 & Hdb & _)
    end.
    rewrite Hfetch in Hfetch2. injection Hfetch2 as _ <-.
    eexists _, _. split; [reflexivity|]. cbn. now rewrite Hdb.
  - intros Hu. rewrite Hu in Hf.
    rewrite (handleSaveEdit_failure user
               (editingState user name mail tel s) w _ eq_refl Hf).
    eexists. split; reflexivity.
  - intros Hnone. unfold UsersView.handleSaveEdit.
    now rewrite bind_getState, Hnone.
Qed.

Lemma uniqueUsers_snoc (rows : list ProjectUsers.Row)
    (new : ProjectUsers.Row) :
  Backend.uniqueUsers rows = true ->
  Backend.uniqueUsers (rows ++ [new])
  = negb (existsb (String.eqb (ProjectUsers.id new))
            (map ProjectUsers.id rows))
    && negb (existsb (String.eqb (ProjectUsers.email new))
               (map ProjectUsers.email rows)).
Proof.
  unfold Backend.uniqueUsers. intros Hu.
  apply andb_true_iff in Hu as [Hi He].
  rewrite !map_app. cbn [map]. rewrite !distinct_snoc, Hi, He.
  reflexivity.
Qed.

Lemma find_snoc_fresh (rows : list ProjectUsers.Row)
    (new : ProjectUsers.Row) :
  ~ In (ProjectUsers.id new) (map ProjectUsers.id rows) ->
  find (fun r => ProjectUsers.id r =? ProjectUsers.id new) (rows ++ [new])
  = Some new.
Proof.
  induction rows as [|r rows IH]; simpl; intros Hfresh.
  - now rewrite String.eqb_refl.
  - destruct (ProjectUsers.id r =? ProjectUsers.id new) eqn:E.
    + apply String.eqb_eq in E. exfalso. apply Hfresh. now left.
    + apply IH. intros Hin. apply Hfresh. now right.
Qed.

(** X4: on a table that satisfies its key constraints, and with a backend
    that serves, adding a user appends exactly one row, made of the three
    fields of the form and the column defaults (active, no report, the phone
    as typed even when it is empty), puts it on display, closes the form and
    clears it, provided neither the email nor the new identifier is taken;
    when one of them is taken nothing is written and the form stays as it
    is. *)
Theorem add_user_appends_or_is_refused (s : UsersView.State) (w : World)
    (Hserved : w_faults w = [])
    (Hunique : Backend.uniqueUsers (project_users (w_db w)) = true) :
  (In (ProjectUsers.f_email (UsersView.newUserForm s))
      (map ProjectUsers.email (project_users (w_db w)))
   \/ In (w_uuids w (w_tick w))
        (map ProjectUsers.id (project_users (w_db w))) ->
   exists w',
     UsersView.handleAddUser s w = (Return tt, s, w')
     /\ w_db w' = w_db w)
  /\ (~ In (ProjectUsers.f_email (UsersView.newUserForm s))
          (map ProjectUsers.email (project_users (w_db w))) ->
      ~ In (w_uuids w (w_tick w))
          (map ProjectUsers.id (project_users (w_db w))) ->
      exists s' w',
        UsersView.handleAddUser s w = (Return tt, s', w')
        /\ project_users (w_db w')
           = project_users (w_db w)
             ++ [ProjectUsers.mkRow (w_uuids w (w_tick w))
                   (ProjectUsers.f_email (UsersView.newUserForm s))
                   (ProjectUsers.f_full_name (UsersView.newUserForm s))
                   (Some (ProjectUsers.f_phone (UsersView.newUserForm s)))
                   true 0 (w_clock w (w_tick w)) (w_clock w (w_tick w))]
        /\ rowOf (w_uuids w (w_tick w)) (w_db w')
           = Some (ProjectUsers.mkRow (w_uuids w (w_tick w))
                     (ProjectUsers.f_email (UsersView.newUserForm s))
                     (ProjectUsers.f_full_name (UsersView.newUserForm s))
                     (Some (ProjectUsers.f_phone (UsersView.newUserForm s)))
                     true 0 (w_clock w (w_tick w)) (w_clock w (w_tick w)))
        /\ In (ProjectUsers.mkRow (w_uuids w (w_tick w))
                 (ProjectUsers.f_email (UsersView.newUserForm s))
                 (ProjectUsers.f_full_name (UsersView.newUserForm s))
                 (Some (ProjectUsers.f_phone (UsersView.newUserForm s)))
                 true 0 (w_clock w (w_tick w)) (w_clock w (w_tick w)))
             (UsersView.users s')
        /\ UsersView.showAddForm s' = false
        /\ UsersView.newUserForm s' = ProjectUsers.mkForm "" "" "").
Proof.
  assert (Hnext : nextFault w = NoFault)
    by (unfold nextFault; now rewrite Hserved).
  set (new := ProjectUsers.insertDefaults (UsersView.newUserForm s)
                (w_uuids w (w_tick w)) (w_clock w (w_tick w))).
  assert (Hins : Backend.insert new Backend.uniqueUsers (w_db w)
                 = if Backend.uniqueUsers (project_users (w_db w) ++ [new])
                   then inr (withRows (project_users (w_db w) ++ [new])
                               (w_db w))
                   else inl (mkError
                         "duplicate key value violates unique constraint"))
    by reflexivity.
  assert (Hf : failure (UsersView.insertUser (UsersView.newUserForm s)) w
               = if Backend.uniqueUsers (project_users (w_db w) ++ [new])
                 then None
                 else Some (mkError
                       "duplicate key value violates unique constraint")).
  { unfold UsersView.insertUser, writeRequest.
    rewrite failure_NoFault by exact Hnext. fold new. rewrite Hins.
    destruct (Backend.uniqueUsers (project_users (w_db w) ++ [new]));
      reflexivity. }
  rewrite (uniqueUsers_snoc _ new Hunique) in Hf, Hins.
  split.
  - intros Htaken.
    assert (Hdup : negb (existsb (String.eqb (ProjectUsers.id new))
                           (map ProjectUsers.id (project_users (w_db w))))
                   && negb (existsb (String.eqb (ProjectUsers.email new))
                              (map ProjectUsers.email
                                 (project_users (w_db w))))
                   = false).
    { destruct Htaken as [He|Hi].
      - apply existsb_eqb_In in He. cbn [new ProjectUsers.insertDefaults
          ProjectUsers.email]. rewrite He. apply andb_false_r.
      - apply existsb_eqb_In in Hi. cbn [new ProjectUsers.insertDefaults
          ProjectUsers.id]. now rewrite Hi. }
    rewrite Hdup in Hf. rewrite (handleAddUser_failure s w _ Hf).
    eexists. split; reflexivity.
  - intros He Hi.
    assert (Hok : negb (existsb (String.eqb (ProjectUsers.id new))
                          (map ProjectUsers.id (project_users (w_db w))))
                  && negb (existsb (String.eqb (ProjectUsers.email new))
                             (map ProjectUsers.email
                                (project_users (w_db w))))
                  = true).
    { apply andb_true_iff. split; apply negb_true_iff;
        apply not_true_is_false; intros H; apply existsb_eqb_In in H;
        [now apply Hi | now apply He]. }
    rewrite Hok in Hf, Hins.
    destruct (handleAddUser_success s w Hf)
      as (db' & s1 & w1 & Hins' & Hfetch & ->).
    fold new in Hins'. rewrite Hins in Hins'. injection Hins' as <-.
    match type of Hfetch with
    | UsersView.fetchUsers ?st ?wd = _ =>
        destruct (fetchUsers_world st wd)
          as (s2 & w2 & Hfetch2 & Hdb & _ & _ & _ & _ & _ & _ & _ & Hrows)
    end.
    rewrite Hfetch in Hfetch2. injection Hfetch2 as <- <-.
    eexists _, _. split; [reflexivity|]. cbn [UsersView.showAddForm
      UsersView.newUserForm UsersView.users].
    rewrite Hdb. cbn [answered w_db withRows ProjectUsers_Table
      project_users].
    repeat split.
    + unfold rowOf. cbn [project_users]. now apply (find_snoc_fresh _ new).
    + rewrite Hrows
        by (unfold nextFault; cbn; now rewrite Hserved).
      apply sortDesc_In. cbn. apply in_or_app. right. now left.
Qed.

End UsersScenarios.

(** ** The Map view's fetch and its transitions *)

Section MapFetch.

Lemma locationsQuery_run (chosen : MapView.StatusFilter) (db : Database) :
  Query.run (MapView.locationsQuery chosen) db
  = inr (Query.sortDesc TrashLocations.created_at
           (filter (statusMatches chosen) (trash_locations db))).
Proof.
  unfold Query.run, MapView.locationsQuery.
  destruct chosen as [|st]; cbn -[Query.sortDesc].
  - reflexivity.
  - do 2 f_equal. apply filter_ext. intros r. cbn. now rewrite andb_true_r.
Qed.

Lemma fetchLocations_served (s : MapView.State) (w : World) :
  nextFault w = NoFault ->
  MapView.fetchLocations s w
  = (Return tt,
     MapView.mkState (displayedLocations (MapView.statusFilter s) (w_db w))
       false (MapView.statusFilter s) (MapView.selectedLocation s),
     answered (w_db w) w).
Proof.
  intros Hserved.
  unfold MapView.fetchLocations, MapView.setLoading, finally, tryCatch, bind,
    MapView.selectLocations, await, request, getState, setState.
  rewrite Hserved, locationsQuery_run. reflexivity.
Qed.

Lemma Descending_map {A B : Type} (f : B -> A) (key : A -> Timestamp)
    (l : list B) :
  Query.Descending (fun b => key (f b)) l ->
  Query.Descending key (map f l).
Proof.
  induction 1 as [|b l Hb Hd IH]; simpl; constructor; auto.
  rewrite Forall_map. exact Hb.
Qed.

Lemma statusMatches_only (st : Status) (r : TrashLocations.Row) :
  statusMatches (only st) r = true <-> TrashLocations.status r = st.
Proof.
  unfold statusMatches. rewrite String.eqb_eq.
  split; [apply statusToken_inj | now intros ->].
Qed.

Lemma reporter_Some (db : Database) (r : TrashLocations.Row)
    (name : string) :
  MapView.reporter db r = Some name
  <-> exists uid u,
        TrashLocations.user_id r = Some uid
        /\ rowOf uid db = Some u
        /\ ProjectUsers.full_name u = name.
Proof.
  unfold MapView.reporter, rowOf.
  destruct (TrashLocations.user_id r) as [uid|].
  - destruct (find _ (project_users db)) as [u|] eqn:Hu.
    + split.
      * intros [= <-]. now exists uid, u.
      * intros (uid' & u' & [= <-] & Hu' & <-). congruence.
    + split; [discriminate|].
      intros (uid' & u' & [= <-] & Hu' & _). congruence.
  - split; [discriminate|]. now intros (uid & u & [=] & _).
Qed.

(** X7: a served fetch of the Map view displays exactly the locations of
    the table whose status is the chosen one (all of them under ['all']),
    newest first, one marker's worth each, every one with the name of its
    reporter when the reporter exists and with none otherwise; the
    selection of the detail panel is left as it was. *)
Theorem map_fetch_displays_the_chosen_status (s : MapView.State) (w : World)
    (Hserved : nextFault w = NoFault) :
  exists s',
    MapView.fetchLocations s w = (Return tt, s', answered (w_db w) w)
    /\ map TrashLocations.row (MapView.locations s')
       = Query.sortDesc TrashLocations.created_at
           (filter (statusMatches (MapView.statusFilter s))
              (trash_locations (w_db w)))
    /\ (forall r,
           In r (map TrashLocations.row (MapView.locations s'))
           <-> In r (trash_locations (w_db w))
               /\ (forall st, MapView.statusFilter s = only st ->
                              TrashLocations.status r = st))
    /\ length (MapView.locations s')
       = length (filter (statusMatches (MapView.statusFilter s))
                   (trash_locations (w_db w)))
    /\ Query.Descending
         (fun j => TrashLocations.created_at (TrashLocations.row j))
         (MapView.locations s')
    /\ (forall j name,
           In j (MapView.locations s') ->
           (TrashLocations.project_users j = Some name
            <-> exists uid u,
                  TrashLocations.user_id (TrashLocations.row j) = Some uid
                  /\ rowOf uid (w_db w) = Some u
                  /\ ProjectUsers.full_name u = name))
    /\ MapView.selectedLocation s' = MapView.selectedLocation s
    /\ MapView.loading s' = false.
Proof.
  eexists. split; [now apply fetchLocations_served|].
  cbn [MapView.locations MapView.selectedLocation MapView.loading].
  unfold displayedLocations.
  assert (Hrows : map TrashLocations.row
                    (map (joined (w_db w))
                       (Query.sortDesc TrashLocations.created_at
                          (filter (statusMatches (MapView.statusFilter s))
                             (trash_locations (w_db w)))))
                  = Query.sortDesc TrashLocations.created_at
                      (filter (statusMatches (MapView.statusFilter s))
                         (trash_locations (w_db w)))).
  { rewrite map_map. cbn. apply map_id. }
  repeat split.
  - exact Hrows.
  - rewrite Hrows in H. apply sortDesc_In, filter_In in H. apply H.
  - rewrite Hrows in H. apply sortDesc_In, filter_In in H as [_ H].
    intros st Hst. rewrite Hst in H. now apply statusMatches_only.
  - intros [Hin Hst]. rewrite Hrows. apply sortDesc_In, filter_In.
    split; [exact Hin|].
    destruct (MapView.statusFilter s) as [|st]; [reflexivity|].
    apply statusMatches_only. now apply Hst.
  - rewrite length_map.
    apply Permutation_length, sortDesc_Permutation.
  - apply Descending_map. apply (sortDesc_Descending TrashLocations.created_at).
  - intros Hname. apply in_map_iff in H as (r & <- & _).
    now apply reporter_Some.
  - intros Hname. apply in_map_iff in H as (r & <- & _).
    now apply reporter_Some.
Qed.

End MapFetch.

Section MapTransitions.

Lemma handleStatusChange_served_run (locationId : Uuid) (target : Status)
    (s : MapView.State) (w : World) :
  w_faults w = [] ->
  exists w',
    MapView.handleStatusChange locationId (statusToken target) s w
    = (Return tt,
       MapView.mkState
         (displayedLocations (MapView.statusFilter s)
            (withRows
               (map (fun r => if TrashLocations.id r =? locationId
                              then transitioned target w r else r)
                  (trash_locations (w_db w)))
               (w_db w)))
         false (MapView.statusFilter s) None,
       w')
    /\ trash_locations (w_db w')
       = map (fun r => if TrashLocations.id r =? locationId
                       then transitioned target w r else r)
           (trash_locations (w_db w)).
Proof.
  intros Hfaults.
  destruct (statusUpdates_world (statusToken target) w) as (Hdb & Hfault & _).
  assert (Hserved : nextFault w = NoFault)
    by (unfold nextFault; now rewrite Hfaults).
  assert (Hf : failure
                 (MapView.updateLocation
                    (fst (statusUpdates (statusToken target) w)) locationId)
                 (snd (statusUpdates (statusToken target) w)) = None).
  { unfold MapView.updateLocation, writeRequest.
    rewrite failure_NoFault by congruence.
    now rewrite Hdb, update_statusUpdates_served. }
  rewrite handleStatusChange_unfold.
  unfold MapView.updateLocation, writeRequest in *.
  destruct (checked_request_success _
              (fun _ => bind MapView.fetchLocations
                          (fun _ => MapView.setSelectedLocation None))
              s _ Hf) as (a & db1 & Hserve & Hrun).
  rewrite Hdb, update_statusUpdates_served in Hserve.
  injection Hserve as <- <-.
  assert (Hnext : nextFault
                    (answered
                       (withRows
                          (map (fun r =>
                                  if TrashLocations.id r =? locationId
                                  then transitioned target w r else r)
                             (trash_locations (w_db w)))
                          (w_db w))
                       (snd (statusUpdates (statusToken target) w)))
                  = NoFault).
  { unfold nextFault, statusUpdates.
    destruct (statusToken target =? "cleaned"); cbn; now rewrite Hfaults. }
  eexists. split.
  - apply tryCatch_return. rewrite Hrun.
    rewrite (bind_return _ _ _ _ _ _ _ (fetchLocations_served _ _ Hnext)).
    reflexivity.
  - reflexivity.
Qed.

Lemma In_displayedLocations (chosen : MapView.StatusFilter) (db : Database)
    (j : TrashLocations.Joined) :
  In j (displayedLocations chosen db) ->
  In (TrashLocations.row j) (trash_locations db)
  /\ statusMatches chosen (TrashLocations.row j) = true.
Proof.
  unfold displayedLocations. intros Hj.
  apply in_map_iff in Hj as (r & <- & Hr).
  apply sortDesc_In, filter_In in Hr. exact Hr.
Qed.

(** X8: with every request served, a transition from the detail panel
    closes the panel and refreshes the map under the status filter that is
    active: when the filter names another status than the target, no
    location of the changed identity is left on display; under ['all'] the
    map keeps one entry per row of the table and shows the changed
    identity with the target status. *)
Theorem transition_refreshes_the_map_under_its_filter
    (locationId : Uuid) (target : Status) (s : MapView.State) (w : World)
    (Hserved : w_faults w = []) :
  exists s' w',
    MapView.handleStatusChange locationId (statusToken target) s w
    = (Return tt, s', w')
    /\ MapView.selectedLocation s' = None
    /\ MapView.statusFilter s' = MapView.statusFilter s
    /\ (forall st0,
           MapView.statusFilter s = only st0 -> target <> st0 ->
           forall j, In j (MapView.locations s') ->
                     TrashLocations.id (TrashLocations.row j) <> locationId)
    /\ (MapView.statusFilter s = all ->
        length (MapView.locations s') = length (trash_locations (w_db w))
        /\ forall j, In j (MapView.locations s') ->
                     TrashLocations.id (TrashLocations.row j) = locationId ->
                     TrashLocations.status (TrashLocations.row j) = target).
Proof.
  destruct (handleStatusChange_served_run locationId target s w Hserved)
    as (w' & Hrun & _).
  eexists _, w'. split; [exact Hrun|].
  cbn [MapView.selectedLocation MapView.statusFilter MapView.locations].
  assert (Hrow : forall chosen j,
             In j (displayedLocations chosen
                     (withRows
                        (map (fun r =>
                                if TrashLocations.id r =? locationId
                                then transitioned target w r else r)
                           (trash_locations (w_db w)))
                        (w_db w))) ->
             statusMatches chosen (TrashLocations.row j) = true
             /\ (TrashLocations.id (TrashLocations.row j) = locationId ->
                 TrashLocations.status (TrashLocations.row j) = target)).
  { intros chosen j Hj. apply In_displayedLocations in Hj as [Hin Hm].
    split; [exact Hm|]. cbn in Hin.
    apply in_map_iff in Hin as (r & Hr & _). intros Hid.
    destruct (TrashLocations.id r =? locationId) eqn:E.
    - now rewrite <- Hr.
    - rewrite <- Hr in Hid. apply String.eqb_neq in E. contradiction. }
  repeat split.
  - intros st0 Hst0 Hne j Hj Hid. rewrite Hst0 in Hj.
    destruct (Hrow _ _ Hj) as [Hm Ht].
    apply statusMatches_only in Hm. rewrite (Ht Hid) in Hm. contradiction.
  - rewrite H. unfold displayedLocations. rewrite length_map.
    rewrite (Permutation_length (sortDesc_Permutation _ _)).
    cbn. rewrite filter_true. apply length_map.
  - intros j Hj Hid. now apply (Hrow _ _ Hj).
Qed.

Lemma fetchLogs_world (s : LogsView.State) (w : World) :
  w_db (snd (LogsView.fetchLogs s w)) = w_db w.
Proof.
  destruct (nextFault w) as [|e|e] eqn:Hf.
  - now rewrite fetchLogs_served.
  - rewrite (fetchLogs_failure s w e); [reflexivity|].
    apply failure_of_fault. now left.
  - rewrite (fetchLogs_failure s w e); [reflexivity|].
    apply failure_of_fault. now right.
Qed.

Lemma Forall2_map_eq {A B : Type} (f : A -> B) (l l' : list A) :
  Forall2 (fun a a' => f a' = f a) l l' -> map f l' = map f l.
Proof. induction 1; simpl; congruence. Qed.

(** X6: a fetch of any of the three views writes no table, whatever the
    backend answers; and a status transition, to any target and whatever
    its fate, leaves the identities of the locations as they were, in
    number and in order, so that the primary key stays in force. *)
Theorem fetches_write_nothing_and_transitions_keep_identities :
  (forall (s : UsersView.State) (w : World),
      w_db (snd (UsersView.fetchUsers s w)) = w_db w)
  /\ (forall (s : MapView.State) (w : World),
         w_db (snd (MapView.fetchLocations s w)) = w_db w)
  /\ (forall (s : LogsView.State) (w : World),
         w_db (snd (LogsView.fetchLogs s w)) = w_db w)
  /\ (forall (locationId : Uuid) (newStatus : string) (s : MapView.State)
             (w : World),
         map TrashLocations.id
           (trash_locations
              (w_db (snd (MapView.handleStatusChange locationId newStatus
                            s w))))
         = map TrashLocations.id (trash_locations (w_db w))
         /\ Backend.uniqueLocations
              (trash_locations
                 (w_db (snd (MapView.handleStatusChange locationId
                               newStatus s w))))
            = Backend.uniqueLocations (trash_locations (w_db w))).
Proof.
  repeat match goal with |- _ /\ _ => split end.
  - intros s w. destruct (fetchUsers_world s w) as (s' & w' & -> & Hdb & _).
    exact Hdb.
  - intros s w.
    destruct (fetchLocations_keeps_tables s w) as (s' & w' & -> & Hdb & _).
    exact Hdb.
  - apply fetchLogs_world.
  - intros locationId newStatus s w.
    assert (Hids : map TrashLocations.id
                     (trash_locations
                        (w_db (snd (MapView.handleStatusChange locationId
                                      newStatus s w))))
                   = map TrashLocations.id (trash_locations (w_db w))).
    { apply Forall2_map_eq.
      destruct (handleStatusChange_tables locationId newStatus s w)
        as (Hrows & _).
      eapply Forall2_impl; [|exact Hrows]. cbn. intros r r' [->|Ha].
      - reflexivity.
      - apply applyUpdate_statusUpdates in Ha as [Hframe _]. apply Hframe. }
    split; [exact Hids|]. unfold Backend.uniqueLocations. now rewrite Hids.
Qed.

End MapTransitions.

(** ** The hundred most recent log entries *)

Section MostRecent.

Lemma Descending_split {R : Type} (key : R -> Timestamp) (l : list R) :
  Query.Descending key l ->
  forall n a b,
    In a (firstn n l) -> In b (skipn n l) -> (key b <= key a)%Z.
Proof.
  induction 1 as [|r rows Hr Hd IH]; intros n a b Ha Hb.
  - now rewrite firstn_nil in Ha.
  - destruct n as [|n]; simpl in Ha, Hb; [contradiction|].
    destruct Ha as [<-|Ha].
    + rewrite Forall_forall in Hr. apply Hr.
      rewrite <- (firstn_skipn n rows). apply in_or_app. now right.
    + now apply (IH n).
Qed.

Lemma Descending_firstn {R : Type} (key : R -> Timestamp) (l : list R)
    (n : nat) :
  Query.Descending key l -> Query.Descending key (firstn n l).
Proof.
  intros Hd. revert n. induction Hd as [|r rows Hr Hd IH]; intros n.
  - rewrite firstn_nil. constructor.
  - destruct n as [|n]; simpl; constructor; [|apply IH].
    rewrite Forall_forall in *. intros x Hx. apply Hr.
    rewrite <- (firstn_skipn n rows). apply in_or_app. now left.
Qed.

(** X9: the entries a served fetch of the Logs view displays are the most
    recent that pass the level filter: they are in descending order of
    creation, together with the entries left out they make up the matching
    entries of the table, no entry left out is more recent than a displayed
    one, and entries are left out only when a hundred are displayed. *)
Theorem logs_fetch_displays_the_most_recent (s : LogsView.State) (w : World)
    (Hserved : nextFault w = NoFault) :
  exists s' rest,
    LogsView.fetchLogs s w = (Return tt, s', answered (w_db w) w)
    /\ Permutation (LogsView.logs s' ++ rest)
         (filter (levelMatches (LogsView.filterLevel s))
            (system_logs (w_db w)))
    /\ Query.Descending SystemLogs.created_at (LogsView.logs s')
    /\ (forall shown left,
           In shown (LogsView.logs s') -> In left rest ->
           (SystemLogs.created_at left <= SystemLogs.created_at shown)%Z)
    /\ (rest <> [] -> length (LogsView.logs s') = 100).
Proof.
  set (sorted := Query.sortDesc SystemLogs.created_at
                   (filter (levelMatches (LogsView.filterLevel s))
                      (system_logs (w_db w)))).
  exists (LogsView.mkState (firstn 100 sorted) false (LogsView.filterLevel s)
            (LogsView.searchQuery s)), (skipn 100 sorted).
  split; [now apply fetchLogs_served|].
  cbn [LogsView.logs].
  assert (Hd : Query.Descending SystemLogs.created_at sorted)
    by apply sortDesc_Descending.
  repeat split.
  - rewrite firstn_skipn. apply sortDesc_Permutation.
  - now apply Descending_firstn.
  - intros shown left. now apply Descending_split.
  - intros Hrest. apply firstn_length_le.
    destruct (Nat.le_gt_cases 100 (length sorted)) as [Hle|Hgt]; [exact Hle|].
    exfalso. apply Hrest. apply skipn_all2. lia.
Qed.

End MostRecent.

(** ** The counters of the Users view *)

Section Footer.

Lemma sum_reports_acc (rows : list ProjectUsers.Row) (a : Z) :
  fold_left (fun sum u => (sum + ProjectUsers.reports_count u)%Z) rows a
  = (a + exactReports rows)%Z.
Proof.
  unfold exactReports.
  revert a. induction rows as [|r rows IH]; intros a; simpl; [lia|].
  rewrite IH, (IH (ProjectUsers.reports_count r)). lia.
Qed.

Lemma exactReports_cons (r : ProjectUsers.Row)
    (rows : list ProjectUsers.Row) :
  exactReports (r :: rows)
  = (ProjectUsers.reports_count r + exactReports rows)%Z.
Proof. unfold exactReports at 1. simpl. apply sum_reports_acc. Qed.

Lemma exactReports_Permutation (l l' : list ProjectUsers.Row) :
  Permutation l l' -> exactReports l = exactReports l'.
Proof.
  induction 1 as [|x l l' _ IH|x y l|l l' l'' _ IH1 _ IH2].
  - reflexivity.
  - rewrite !exactReports_cons. now rewrite IH.
  - rewrite !exactReports_cons. lia.
  - congruence.
Qed.

Lemma exactReports_nonneg (rows : list ProjectUsers.Row) :
  Forall (fun u => (0 <= ProjectUsers.reports_count u)%Z) rows ->
  (0 <= exactReports rows)%Z.
Proof.
  induction 1 as [|r rows Hr _ IH]; [unfold exactReports; simpl; lia|].
  rewrite exactReports_cons. lia.
Qed.

Lemma CountableReports_Permutation (l l' : list ProjectUsers.Row) :
  Permutation l l' -> CountableReports l -> CountableReports l'.
Proof.
  intros Hp [Hpos Hsafe]. split.
  - exact (Permutation_Forall Hp Hpos).
  - now rewrite <- (exactReports_Permutation _ _ Hp).
Qed.

(** A write that leaves every report count alone. *)
Lemma exactReports_map (f : ProjectUsers.Row -> ProjectUsers.Row)
    (rows : list ProjectUsers.Row) :
  (forall r, ProjectUsers.reports_count (f r) = ProjectUsers.reports_count r) ->
  exactReports (map f rows) = exactReports rows
  /\ (Forall (fun u => (0 <= ProjectUsers.reports_count u)%Z) rows ->
      Forall (fun u => (0 <= ProjectUsers.reports_count u)%Z) (map f rows)).
Proof.
  intros Hf. split.
  - induction rows as [|r rows IH]; [reflexivity|].
    cbn [map]. rewrite !exactReports_cons, IH, Hf. reflexivity.
  - intros H. apply Forall_map. revert H. apply Forall_impl.
    intros r. now rewrite Hf.
Qed.

Section HostAddition.

Variable plus : Z -> Z -> Z.
Hypothesis plus_exact : ExactOnSafeIntegers plus.

(** On countable reports the host's running sum never rounds. *)
Lemma running_sum_exact (rows : list ProjectUsers.Row) (a : Z) :
  Forall (fun u => (0 <= ProjectUsers.reports_count u)%Z) rows ->
  (0 <= a)%Z ->
  safeInteger (a + exactReports rows) ->
  fold_left (fun sum u => plus sum (ProjectUsers.reports_count u)) rows a
  = (a + exactReports rows)%Z.
Proof.
  intros Hpos. revert a.
  induction Hpos as [|r rows Hr Hpos IH]; intros a Ha Hsafe.
  - unfold exactReports. simpl. lia.
  - rewrite exactReports_cons in Hsafe |- *.
    pose proof (exactReports_nonneg rows Hpos) as Hrest.
    unfold safeInteger in Hsafe.
    cbn [fold_left]. rewrite plus_exact by (unfold safeInteger; lia).
    rewrite IH; [lia | lia | unfold safeInteger; lia].
Qed.

Lemma totalReports_exact (s : UsersView.State) :
  CountableReports (UsersView.users s) ->
  UsersForms.totalReports plus s = exactReports (UsersView.users s).
Proof.
  intros [Hpos Hsafe]. unfold UsersForms.totalReports.
  rewrite running_sum_exact; [lia | exact Hpos | lia | exact Hsafe].
Qed.

End HostAddition.

Lemma count_Permutation {A : Type} (f : A -> bool) (l l' : list A) :
  Permutation l l' -> length (filter f l) = length (filter f l').
Proof.
  induction 1 as [|x l l' _ IH|x y l|l l' l'' _ IH1 _ IH2]; simpl.
  - reflexivity.
  - destruct (f x); simpl; now rewrite IH.
  - destruct (f x), (f y); reflexivity.
  - congruence.
Qed.

(** Toggling the one row of a given identity moves the count of active
    rows by one. *)
Lemma count_active_after_toggle (rows : list ProjectUsers.Row)
    (u : ProjectUsers.Row) (t : Timestamp) :
  Backend.distinct (map ProjectUsers.id rows) = true ->
  find (fun r => ProjectUsers.id r =? ProjectUsers.id u) rows = Some u ->
  length (filter (fun r => ProjectUsers.is_active r)
            (map (fun r => if ProjectUsers.id r =? ProjectUsers.id u
                           then setActive (ProjectUsers.is_active u) t r
                           else r)
               rows))
  + (if ProjectUsers.is_active u then 1 else 0)
  = length (filter (fun r => ProjectUsers.is_active r) rows)
    + (if ProjectUsers.is_active u then 0 else 1).
Proof.
  induction rows as [|r rows IH]; simpl; [discriminate|].
  intros Hd Hfind. apply andb_true_iff in Hd as [Hfresh Hd].
  destruct (ProjectUsers.id r =? ProjectUsers.id u) eqn:E.
  - injection Hfind as ->. cbn [setActive ProjectUsers.is_active].
    assert (Hrest : map (fun r => if ProjectUsers.id r =? ProjectUsers.id u
                                  then setActive (ProjectUsers.is_active u)
                                         t r
                                  else r) rows = rows).
    { rewrite <- (map_id rows) at 2. apply map_ext_in. intros x Hx.
      destruct (ProjectUsers.id x =? ProjectUsers.id u) eqn:Ex;
        [|reflexivity].
      apply String.eqb_eq in Ex. apply negb_true_iff in Hfresh.
      assert (Hin : existsb (String.eqb (ProjectUsers.id u))
                      (map ProjectUsers.id rows) = true).
      { apply existsb_eqb_In. rewrite <- Ex. now apply in_map. }
      congruence. }
    rewrite Hrest. destruct (ProjectUsers.is_active u); simpl; lia.
  - specialize (IH Hd Hfind). destruct (ProjectUsers.is_active r); simpl; lia.
Qed.

(** X10: after a served fetch the first two counters under the table are
    the number of rows of the table and the number of its active rows; the
    third, which the host adds up in doubles, is the sum of the report
    counts as long as the counts are not negative and their sum is a safe
    integer (below 2^53), in whatever order the rows are displayed; and a
    served click on the toggle of a displayed row, on a table with distinct
    identities, moves the active counter by exactly one and leaves the other
    two. *)
Theorem footer_counts_the_table (plus : Z -> Z -> Z)
    (plus_exact : ExactOnSafeIntegers plus) :
  (forall (s : UsersView.State) (w : World),
      nextFault w = NoFault ->
      let s' := snd (fst (UsersView.fetchUsers s w)) in
      UsersForms.totalUsers s' = length (project_users (w_db w))
      /\ UsersForms.activeUsers s'
         = length (filter (fun u => ProjectUsers.is_active u)
                     (project_users (w_db w)))
      /\ UsersForms.activeUsers s' <= UsersForms.totalUsers s'
      /\ (CountableReports (project_users (w_db w)) ->
          UsersForms.totalReports plus s'
          = exactReports (project_users (w_db w))))
  /\ (forall (s : UsersView.State) (w : World) (u : ProjectUsers.Row),
         w_faults w = [] ->
         Backend.distinct (map ProjectUsers.id (project_users (w_db w)))
         = true ->
         rowOf (ProjectUsers.id u) (w_db w) = Some u ->
         let s' := snd (fst (UsersView.clickToggle u s w)) in
         UsersForms.totalUsers s' = length (project_users (w_db w))
         /\ UsersForms.activeUsers s'
            + (if ProjectUsers.is_active u then 1 else 0)
            = length (filter (fun r => ProjectUsers.is_active r)
                        (project_users (w_db w)))
              + (if ProjectUsers.is_active u then 0 else 1)
         /\ (CountableReports (project_users (w_db w)) ->
             UsersForms.totalReports plus s'
             = exactReports (project_users (w_db w)))).
Proof.
  split.
  - intros s w Hserved. rewrite fetchUsers_served by exact Hserved.
    cbn [fst snd].
    pose proof (sortDesc_Permutation ProjectUsers.created_at
                  (project_users (w_db w))) as Hp.
    repeat split.
    + unfold UsersForms.totalUsers. cbn [UsersView.users].
      now apply Permutation_length.
    + unfold UsersForms.activeUsers. cbn [UsersView.users].
      now apply count_Permutation.
    + apply filter_length_le.
    + intros Hc. rewrite (totalReports_exact plus plus_exact).
      * cbn [UsersView.users]. now apply exactReports_Permutation.
      * cbn [UsersView.users].
        exact (CountableReports_Permutation _ _ (Permutation_sym Hp) Hc).
  - intros s w u Hfaults Hd Hrow.
    assert (Hserved : nextFault w = NoFault)
      by (unfold nextFault; now rewrite Hfaults).
    unfold UsersView.clickToggle.
    rewrite handleToggleActive_served by exact Hserved.
    rewrite fetchUsers_served
      by (unfold nextFault; cbn; now rewrite Hfaults).
    cbn [fst snd].
    cbn [answered w_db withRows ProjectUsers_Table project_users].
    match goal with
    | |- context [Query.sortDesc ProjectUsers.created_at ?rows] =>
        pose proof (sortDesc_Permutation ProjectUsers.created_at rows) as Hp
    end.
    match type of Hp with
    | Permutation _ (map ?f _) =>
        destruct (exactReports_map f (project_users (w_db w)))
          as [Hsum Hpos];
          [intros r; now destruct (ProjectUsers.id r =? ProjectUsers.id u)|]
    end.
    repeat split.
    + unfold UsersForms.totalUsers. cbn [UsersView.users].
      rewrite (Permutation_length Hp). apply length_map.
    + unfold UsersForms.activeUsers. cbn [UsersView.users].
      rewrite (count_Permutation _ _ _ Hp).
      exact (count_active_after_toggle _ u (w_clock w (w_tick w)) Hd Hrow).
    + intros [Hnn Hsafe]. rewrite (totalReports_exact plus plus_exact).
      * cbn [UsersView.users].
        now rewrite (exactReports_Permutation _ _ Hp).
      * cbn [UsersView.users].
        apply (CountableReports_Permutation _ _ (Permutation_sym Hp)). split.
        -- now apply Hpos.
        -- now rewrite Hsum.
Qed.

(** The rounded sum is exact on safe integers. *)
Lemma doubleAdd_exact : ExactOnSafeIntegers doubleAdd.
Proof.
  intros a b _ _ Hs. unfold doubleAdd, roundToDouble, safeInteger in *.
  assert (Hlog : (Z.log2 (Z.abs (a + b)) < 53)%Z).
  { destruct (Z.eq_dec (Z.abs (a + b)) 0) as [E|E].
    - rewrite E. reflexivity.
    - apply Z.log2_lt_pow2; lia. }
  destruct (Z.leb_spec (Z.log2 (Z.abs (a + b)) - 52) 0); [reflexivity|lia].
Qed.

(** Past the safe integers the host rounds, and the order of the rows
    shows. *)
Example doubleAdd_rounds :
  doubleAdd (doubleAdd (2 ^ 53) 1) 1 = (2 ^ 53)%Z
  /\ doubleAdd (doubleAdd 1 1) (2 ^ 53) = (2 ^ 53 + 2)%Z.
Proof. split; reflexivity. Qed.

End Footer.

(** ** Markers *)

Section Markers.

Import MapMarkers.

Lemma fold_left_snoc_map {A B : Type} (f : A -> B) (l : list A)
    (acc : list B) :
  fold_left (fun objects a => objects ++ [f a]) l acc = acc ++ map f l.
Proof.
  revert acc. induction l as [|a l IH]; intros acc; simpl.
  - now rewrite app_nil_r.
  - now rewrite IH, <- app_assoc.
Qed.

Lemma updateMapMarkers_instance (locations : list TrashLocations.Joined)
    (refs : Refs) (old : list Placemark) :
  mapInstanceRef refs = Some old -> ymaps refs = true ->
  updateMapMarkers locations refs
  = mkRefs true (mapRef refs) (Some (map placemarkOf locations))
      (pendingReady refs).
Proof.
  unfold updateMapMarkers. intros -> ->. simpl.
  now rewrite fold_left_snoc_map.
Qed.

Lemma readyCallback_loaded (locations : list TrashLocations.Joined)
    (refs : Refs) :
  ymaps refs = true ->
  readyCallback locations refs
  = mkRefs true (mapRef refs) (Some (map placemarkOf locations))
      (pendingReady refs).
Proof.
  intros Hy. unfold readyCallback.
  now rewrite (updateMapMarkers_instance _ _ []).
Qed.

Lemma ready_callbacks_keep_refs (pending : list (list TrashLocations.Joined))
    (refs : Refs) :
  ymaps refs = true ->
  ymaps (fold_left (fun r locations => readyCallback locations r)
           pending refs) = true
  /\ pendingReady (fold_left (fun r locations => readyCallback locations r)
                     pending refs) = pendingReady refs.
Proof.
  revert refs. induction pending as [|L pending IH]; intros refs Hy; simpl.
  - now split.
  - rewrite (readyCallback_loaded L refs Hy).
    destruct (IH (mkRefs true (mapRef refs) (Some (map placemarkOf L))
                    (pendingReady refs)) eq_refl) as [H1 H2].
    now split.
Qed.

(** X11: once the map exists, the effect on a change of the locations
    replaces the markers by one marker per location, in order, each with
    the preset of its status and opening its own location, so that markers
    never pile up; before the map exists the effect only queues a callback,
    and when the map script becomes ready the map ends with the markers of
    the last queued render; without the script no map is ever made. *)
Theorem markers_mirror_the_locations :
  (forall (locations : list TrashLocations.Joined) (refs : Refs)
          (old : list Placemark),
      mapInstanceRef refs = Some old -> ymaps refs = true ->
      mapInstanceRef (locationsEffect locations refs)
      = Some (map placemarkOf locations)
      /\ locationsEffect locations (locationsEffect locations refs)
         = locationsEffect locations refs)
  /\ (forall (locations : list TrashLocations.Joined) (refs : Refs),
         mapInstanceRef refs = None -> ymaps refs = true ->
         mapRef refs = true ->
         locationsEffect locations refs
         = mkRefs true true None (pendingReady refs ++ [locations]))
  /\ (forall (earlier : list (list TrashLocations.Joined))
             (locations : list TrashLocations.Joined) (refs : Refs),
         ymaps refs = true ->
         pendingReady refs = earlier ++ [locations] ->
         mapInstanceRef (scriptReady refs) = Some (map placemarkOf locations)
         /\ pendingReady (scriptReady refs) = [])
  /\ (forall (locations : list TrashLocations.Joined) (refs : Refs),
         mapInstanceRef refs = None -> ymaps refs = false ->
         locationsEffect locations refs = refs
         /\ updateMapMarkers locations refs = refs)
  /\ (forall (location : TrashLocations.Joined),
         opens (placemarkOf location) = location
         /\ coordinates (placemarkOf location)
            = (TrashLocations.latitude (TrashLocations.row location),
               TrashLocations.longitude (TrashLocations.row location))
         /\ preset (placemarkOf location)
            = match TrashLocations.status (TrashLocations.row location) with
              | reported => "islands#redIcon"
              | in_progress => "islands#blueIcon"
              | cleaned => "islands#greenIcon"
              | rejected => "islands#grayIcon"
              end).
Proof.
  repeat match goal with |- _ /\ _ => split end.
  - intros locations refs old Hi Hy. unfold locationsEffect.
    rewrite Hi, Hy, andb_false_r.
    rewrite (updateMapMarkers_instance _ _ old) by assumption.
    split; [reflexivity|].
    cbn. now rewrite andb_false_r, fold_left_snoc_map.
  - intros locations refs Hi Hy Hm. unfold locationsEffect.
    now rewrite Hi, Hy, Hm.
  - intros earlier locations refs Hy Hp. unfold scriptReady.
    rewrite Hp, fold_left_app. cbn [fold_left].
    destruct (ready_callbacks_keep_refs earlier
                (mkRefs (ymaps refs) (mapRef refs) (mapInstanceRef refs) [])
                Hy) as [Hy' Hp'].
    rewrite (readyCallback_loaded _ _ Hy'). split; [reflexivity | exact Hp'].
  - intros locations refs Hi Hy. unfold locationsEffect, updateMapMarkers.
    now rewrite Hi, Hy.
  - intros location. repeat split.
    cbn. now destruct (TrashLocations.status (TrashLocations.row location)).
Qed.

End Markers.

(** ** Colours *)

Section Colours.

Import MapHelpers.

(** X12: the marker on the map, the icon and the badge of the detail panel
    use one and the same colour for a status: red for [reported], blue for
    [in_progress], green for [cleaned], gray for [rejected]; and no two
    statuses share a marker preset, a badge or a label. *)
Theorem status_colours_agree :
  (forall st : Status,
      getMarkerPreset (statusToken st)
      = ("islands#" ++ statusColour st ++ "Icon")%string
      /\ icon_className (getStatusIcon (statusToken st))
         = ("w-5 h-5 text-" ++ statusColour st ++ "-500")%string
      /\ getStatusBadgeColor (statusToken st)
         = ("bg-" ++ statusColour st ++ "-100 text-" ++ statusColour st
            ++ "-800")%string)
  /\ NoDup (map statusColour allStatuses)
  /\ NoDup (map (fun st => getMarkerPreset (statusToken st)) allStatuses)
  /\ NoDup (map (fun st => getStatusBadgeColor (statusToken st)) allStatuses)
  /\ NoDup (map (fun st => getStatusLabel (statusToken st)) allStatuses).
Proof.
  repeat match goal with |- _ /\ _ => split end.
  - intros st. destruct st; repeat split.
  - repeat constructor; simpl; intuition discriminate.
  - repeat constructor; simpl; intuition discriminate.
  - repeat constructor; simpl; intuition discriminate.
  - repeat constructor; simpl; intuition discriminate.
Qed.

(** X13: every log level has an icon and a badge, both of the colour of the
    level: blue for [info], yellow for [warning], orange for [error], red
    for [critical]; no two levels share a colour, a badge or an icon; on
    any other value the two helpers of the Logs view yield [undefined]. *)
Theorem log_levels_have_their_own_colour :
  (forall lvl : LogLevel,
      (exists icon,
          LogsHelpers.getLogIcon (logLevelToken lvl) = Some icon
          /\ icon_className icon
             = ("w-5 h-5 text-" ++ levelColour lvl ++ "-500")%string)
      /\ LogsHelpers.getLogBadgeColor (logLevelToken lvl)
         = Some ("bg-" ++ levelColour lvl ++ "-100 text-" ++ levelColour lvl
                 ++ "-800")%string)
  /\ NoDup (map levelColour allLogLevels)
  /\ NoDup (map (fun lvl => LogsHelpers.getLogBadgeColor (logLevelToken lvl))
              allLogLevels)
  /\ NoDup (map (fun lvl => LogsHelpers.getLogIcon (logLevelToken lvl))
              allLogLevels)
  /\ (forall x : string,
         isToken logLevelToken allLogLevels x = false ->
         LogsHelpers.getLogIcon x = None
         /\ LogsHelpers.getLogBadgeColor x = None).
Proof.
  repeat match goal with |- _ /\ _ => split end.
  - intros lvl. destruct lvl; (split; [eexists; split|]); reflexivity.
  - repeat constructor; simpl; intuition discriminate.
  - repeat constructor; simpl; intuition discriminate.
  - repeat constructor; simpl; intuition discriminate.
  - intros x H. unfold isToken in H. simpl in H.
    repeat (apply orb_false_iff in H as [? H]).
    cbn. repeat match goal with
                | Hk : (x =? _) = false |- _ => rewrite Hk; clear Hk
                end.
    now split.
Qed.

End Colours.

(** ** The shell *)

Section Shell.

Import Dashboard.

(** X14: the shell mounts exactly one view, the current one, and
    highlights exactly the menu entry of that view; each view has a menu
    entry whose click makes it the current one and touches nothing else;
    the first view is the map; two presses on the header button leave the
    sidebar as it was. *)
Theorem dashboard_shows_one_view :
  (forall s : State, mounted s = [currentView s])
  /\ (forall s : State,
         map item_id
           (filter (fun item =>
                      menuClass s item
                      =? "bg-green-50 text-green-700 font-medium")
              menuItems)
         = [currentView s])
  /\ (forall v : View,
         exists item,
           In item menuItems
           /\ forall (s : State) (w : World),
                clickMenu item s w
                = (Return tt, mkState v (sidebarOpen s), w))
  /\ currentView initial = map_
  /\ (forall (s : State) (w : World),
         (toggleSidebar ;; toggleSidebar) s w = (Return tt, s, w))
  /\ (forall s : State,
         sidebarWidth s = "w-0" <-> sidebarOpen s = false).
Proof.
  repeat match goal with |- _ /\ _ => split end.
  - intros [[] open]; reflexivity.
  - intros [[] open]; reflexivity.
  - intros v.
    exists (nth (match v with map_ => 0 | logs_ => 1 | users_ => 2 end)
              menuItems (mkItem map_ "" "")).
    destruct v; (split; [simpl; auto | reflexivity]).
  - reflexivity.
  - intros [v open] w. cbn. now rewrite negb_involutive.
  - intros s. unfold sidebarWidth.
    destruct (sidebarOpen s); split; intros H;
      first [reflexivity | discriminate H].
Qed.

(** X15: whatever the sign-out of the authentication context does, the
    shell's handler ends normally; when the sign-out throws, its error is
    written to the console and nothing else happens. *)
Theorem sign_out_failures_are_swallowed (signOut : Eff State unit) :
  NeverThrows (handleSignOut signOut)
  /\ (forall (s s' : State) (w w' : World) (e : Error),
         signOut s w = (Throw e, s', w') ->
         handleSignOut signOut s w
         = (Return tt, s', logged "Error signing out:" e w'))
  /\ (forall (s s' : State) (w w' : World),
         signOut s w = (Return tt, s', w') ->
         handleSignOut signOut s w = (Return tt, s', w')).
Proof.
  split; [apply tryCatch_consoleError|]. split.
  - intros s s' w w' e H. unfold handleSignOut.
    now rewrite (tryCatch_throw _ _ _ _ _ _ _ H).
  - intros s s' w w' H. unfold handleSignOut.
    now rewrite (tryCatch_return _ _ _ _ _ _ _ H).
Qed.

End Shell.

(** ** Further runs on the sample tables *)

Lemma toggle_writes_the_negated_flag_witness :
  map ProjectUsers.is_active
    (project_users
       (w_db (snd ((UsersView.handleToggleActive "u2" true ;;
                    UsersView.handleToggleActive "u2" true)
                     UsersView.initial (sampleWorld [])))))
  = [true; false; true].
Proof.
  rewrite (proj2 toggle_writes_the_negated_flag "u2" true UsersView.initial
             (sampleWorld []) eq_refl).
  reflexivity.
Defined.

Lemma edit_and_save_overwrites_the_row_witness :
  exists s' w',
    editAndSave maria "Maria Petrova" "maria@example.com" ""
      UsersView.initial (sampleWorld [])
    = (Return tt, s', w')
    /\ map ProjectUsers.full_name (project_users (w_db w'))
       = ["Ivan Petrov"; "Maria Petrova"; "Alexey Kozlov"].
Proof.
  destruct (proj1 (edit_and_save_overwrites_the_row maria "Maria Petrova"
                     "maria@example.com" "" UsersView.initial
                     (sampleWorld []) eq_refl) eq_refl)
    as (s' & w' & Hrun & Hrows & _).
  exists s', w'. split; [exact Hrun|]. rewrite Hrows. reflexivity.
Defined.

Lemma add_user_appends_or_is_refused_witness :
  exists s' w',
    UsersView.handleAddUser
      (loadedUsersView (ProjectUsers.mkForm "olga@example.com" "Olga" ""))
      (sampleWorld [])
    = (Return tt, s', w')
    /\ map ProjectUsers.phone (project_users (w_db w'))
       = [Some "+7 999 123-45-67"; Some "+7 999 234-56-78"; None; Some ""]
    /\ UsersView.showAddForm s' = false.
Proof.
  destruct (proj2 (add_user_appends_or_is_refused
                     (loadedUsersView
                        (ProjectUsers.mkForm "olga@example.com" "Olga" ""))
                     (sampleWorld []) eq_refl eq_refl))
    as (s' & w' & Hrun & Hrows & _ & _ & Hform & _).
  - cbn. intuition discriminate.
  - cbn. intuition discriminate.
  - exists s', w'. split; [exact Hrun|]. split; [|exact Hform].
    rewrite Hrows. reflexivity.
Defined.

Lemma map_fetch_displays_the_chosen_status_witness :
  exists s',
    MapView.fetchLocations (MapView.mkState [] true (only cleaned) None)
      (sampleWorld [])
    = (Return tt, s', answered sampleDatabase (sampleWorld []))
    /\ map TrashLocations.id (map TrashLocations.row (MapView.locations s'))
       = ["l2"].
Proof.
  destruct (map_fetch_displays_the_chosen_status
              (MapView.mkState [] true (only cleaned) None) (sampleWorld [])
              eq_refl)
    as (s' & Hrun & Hrows & _).
  exists s'. split; [exact Hrun|]. rewrite Hrows. reflexivity.
Defined.

Lemma transition_refreshes_the_map_under_its_filter_witness :
  exists s' w',
    MapView.handleStatusChange "l1" (statusToken in_progress)
      (MapView.mkState [] false (only reported) None) (sampleWorld [])
    = (Return tt, s', w')
    /\ MapView.selectedLocation s' = None
    /\ forall j, In j (MapView.locations s') ->
                 TrashLocations.id (TrashLocations.row j) <> "l1".
Proof.
  destruct (transition_refreshes_the_map_under_its_filter "l1" in_progress
              (MapView.mkState [] false (only reported) None)
              (sampleWorld []) eq_refl)
    as (s' & w' & Hrun & Hsel & _ & Hgone & _).
  exists s', w'. split; [exact Hrun|]. split; [exact Hsel|].
  apply (Hgone reported eq_refl). discriminate.
Defined.

Lemma logs_fetch_displays_the_most_recent_witness :
  exists s' rest,
    LogsView.fetchLogs LogsView.initial (sampleWorld [])
    = (Return tt, s', answered sampleDatabase (sampleWorld []))
    /\ Permutation (LogsView.logs s' ++ rest) sampleLogs
    /\ Query.Descending SystemLogs.created_at (LogsView.logs s').
Proof.
  destruct (logs_fetch_displays_the_most_recent LogsView.initial
              (sampleWorld []) eq_refl)
    as (s' & rest & Hrun & Hperm & Hdesc & _).
  exists s', rest. split; [exact Hrun|]. split; [exact Hperm | exact Hdesc].
Defined.

Lemma footer_counts_the_table_witness :
  ExactOnSafeIntegers doubleAdd
  /\ CountableReports (project_users (w_db (sampleWorld [])))
  /\ UsersForms.totalReports doubleAdd
       (snd (fst (UsersView.clickToggle maria UsersView.initial
                    (sampleWorld []))))
     = 16%Z.
Proof.
  split; [exact doubleAdd_exact|].
  assert (Hc : CountableReports (project_users (w_db (sampleWorld [])))).
  { split; [repeat constructor; cbn; lia | unfold safeInteger; cbn; lia]. }
  split; [exact Hc|].
  exact (proj2 (proj2 (proj2 (footer_counts_the_table doubleAdd
                                doubleAdd_exact)
                         UsersView.initial (sampleWorld []) maria
                         eq_refl eq_refl eq_refl))
           Hc).
Defined.

Lemma markers_mirror_the_locations_witness :
  MapMarkers.mapInstanceRef
    (MapMarkers.scriptReady
       (MapMarkers.locationsEffect
          (displayedLocations all sampleDatabase)
          (MapMarkers.locationsEffect [] (MapMarkers.initialRefs true))))
  = Some (map MapMarkers.placemarkOf (displayedLocations all sampleDatabase)).
Proof.
  apply (proj1 (proj1 (proj2 (proj2 markers_mirror_the_locations))
                  [[]] (displayedLocations all sampleDatabase)
                  (MapMarkers.locationsEffect
                     (displayedLocations all sampleDatabase)
                     (MapMarkers.locationsEffect []
                        (MapMarkers.initialRefs true)))
                  eq_refl eq_refl)).
Defined.

Lemma log_levels_have_their_own_colour_witness :
  LogsHelpers.getLogIcon "debug" = None
  /\ LogsHelpers.getLogBadgeColor "debug" = None.
Proof.
  apply (proj2 (proj2 (proj2 (proj2 log_levels_have_their_own_colour)))).
  reflexivity.
Defined.

Lemma sign_out_failures_are_swallowed_witness :
  Dashboard.handleSignOut (throw networkDown) Dashboard.initial
    (sampleWorld [])
  = (Return tt, Dashboard.initial,
     logged "Error signing out:" networkDown (sampleWorld [])).
Proof.
  apply (proj1 (proj2 (sign_out_failures_are_swallowed (throw networkDown)))).
  reflexivity.
Defined.
